(** * LocalContentGenerator: the local-model adapter of gemini-cli

    A shallow embedding of
    [packages/core/src/core/localContentGenerator.ts] and the properties
    its specification states about it.

    Conventions of the embedding.
    - A JavaScript string is a [string]: one [ascii] stands for one UTF-16
      code unit of the Latin-1 range, so [String.length] is [.length].
    - A JavaScript number is an integer [Z] (token counts, HTTP status
      codes).  The one addition of the adapter is computed here where
      IEEE doubles add exactly, on safe integers with a safe sum; what
      [+] does on any other operands is a parameter, [JS_add].
    - A promise is the list of effects performed until it settles together
      with its outcome, [inl] a thrown value or [inr] the returned one.
    - An async generator is the [StreamRun] a consumer observes when it
      iterates the generator to its end. *)

From Stdlib Require Import String Ascii List Bool Arith ZArith NArith.
From Stdlib Require Import QArith Qround Lia DecimalString.
Import ListNotations.

Set Warnings "-register-all".

Local Open Scope list_scope.
Local Open Scope string_scope.

(* ===================================================================== *)
(** ** The part of the JavaScript runtime the adapter relies on          *)
(* ===================================================================== *)

Module JS.

(** WhiteSpace and LineTerminator code units below 256: TAB, LF, VT, FF,
    CR, SPACE and NBSP.  These are what [String.prototype.trim] removes. *)
Definition is_white_space (c : ascii) : bool :=
  existsb (N.eqb (N_of_ascii c)) [9; 10; 11; 12; 13; 32; 160]%N.

Definition LF : ascii := "010"%char.

Definition is_LF (c : ascii) : bool := Ascii.eqb c LF.

(** A string is truthy when it is not empty. *)
Definition nonempty (s : string) : bool :=
  match s with
  | EmptyString => false
  | String _ _ => true
  end.

Fixpoint trimStart (s : string) : string :=
  match s with
  | EmptyString => EmptyString
  | String c s' => if is_white_space c then trimStart s' else s
  end.

Fixpoint trimEnd (s : string) : string :=
  match s with
  | EmptyString => EmptyString
  | String c s' =>
      match trimEnd s' with
      | EmptyString => if is_white_space c then EmptyString else String c EmptyString
      | String _ _ as r => String c r
      end
  end.

(** [s.trim()] *)
Definition trim (s : string) : string := trimEnd (trimStart s).

(** [s.split('\n')]: the segments between line feeds; [n] line feeds give
    [n + 1] segments, so the result is never empty. *)
Fixpoint split_LF (s : string) : list string :=
  match s with
  | EmptyString => [EmptyString]
  | String c s' =>
      if is_LF c then EmptyString :: split_LF s'
      else match split_LF s' with
           | seg :: segs => String c seg :: segs
           | [] => [String c EmptyString]
           end
  end.

(** [a.pop()]: the last element ([None] for [undefined] on an empty
    array) and the array that is left. *)
Fixpoint pop {A : Type} (a : list A) : option A * list A :=
  match a with
  | [] => (None, [])
  | x :: a' =>
      match a' with
      | [] => (Some x, [])
      | _ :: _ => let (l, rest) := pop a' in (l, x :: rest)
      end
  end.

(** Decimal rendering of a non-negative integer in a template literal.
    JavaScript prints all the digits of an integer below 10^21; the
    integers printed by the adapter are HTTP status codes (an unsigned
    short) and string lengths. *)
Definition string_of_N (n : N) : string := NilZero.string_of_uint (N.to_uint n).

Definition string_of_nat (n : nat) : string := NilZero.string_of_uint (Nat.to_uint n).

(** [Math.ceil(n / d)] for a non-negative integer [n] and positive [d]. *)
Definition Math_ceil_div (n : nat) (d : positive) : Z :=
  Qceiling (Z.of_nat n # d).

(** An object property as [in] and a read see it: the key is missing, the
    key is there and holds [undefined], or it holds a value. *)
Inductive field (A : Type) : Type :=
| Absent
| Undefined
| Value (a : A).

Arguments Absent {A}.
Arguments Undefined {A}.
Arguments Value {A} a.

(** ['key' in obj] *)
Definition has_key {A : Type} (f : field A) : bool :=
  match f with
  | Absent => false
  | Undefined | Value _ => true
  end.

(** A value received as JSON.  [JNumber] holds the integer-valued numbers. *)
Inductive json : Type :=
| JNull
| JBool (b : bool)
| JNumber (n : Z)
| JString (s : string)
| JArray (elements : list json)
| JObject (members : list (string * json)).

(** What a property read gives: [None] is [undefined]. *)
Definition value : Type := option json.

(** ToBoolean *)
Definition truthy (v : value) : bool :=
  match v with
  | None => false
  | Some JNull => false
  | Some (JBool b) => b
  | Some (JNumber n) => negb (n =? 0)%Z
  | Some (JString s) => nonempty s
  | Some (JArray _) | Some (JObject _) => true
  end.

(** [a || b] with a defined right operand. *)
Definition or_else (a : value) (b : json) : json :=
  match a with
  | Some j => if truthy a then j else b
  | None => b
  end.

(** The own property [key] of an object built by [JSON.parse]. *)
Fixpoint member (key : string) (members : list (string * json)) : value :=
  match members with
  | [] => None
  | (k, v) :: rest => if String.eqb k key then Some v else member key rest
  end.

(** [Number.MAX_SAFE_INTEGER], 2^53 - 1: up to it every integer is a
    double, and the sum of two doubles is exact when it stays within. *)
Definition MAX_SAFE_INTEGER : Z := 9007199254740991.

(** [Number.isSafeInteger(n)] *)
Definition is_safe_integer (n : Z) : bool :=
  ((- MAX_SAFE_INTEGER <=? n) && (n <=? MAX_SAFE_INTEGER))%Z.

(** A thrown value: an [Error] object with its [name] and [message]. *)
Record Error : Type := mkError { name : string; message : string }.

(** [new Error(msg)] *)
Definition new_Error (msg : string) : Error := mkError "Error" msg.

(** [`${error.message || error}`]: the message when it is not empty,
    otherwise [Error.prototype.toString], which for an empty message is
    the name. *)
Definition message_or_self (e : Error) : string :=
  if nonempty (message e) then message e else name e.

Definition DQUOTE : string := String "034"%char EmptyString.

Definition SQUOTE : string := String "039"%char EmptyString.

(** [data.key] for the keys the adapter reads ([response], [done],
    [prompt_eval_count], [eval_count]): reading a property of [null]
    throws a TypeError, an object gives its member, and the other values
    have no property of these names. *)
Definition get (data : json) (key : string) : Error + value :=
  match data with
  | JNull =>
      inl (mkError "TypeError"
             ("Cannot read properties of null (reading " ++ SQUOTE ++ key ++ SQUOTE ++ ")"))
  | JObject members => inr (member key members)
  | _ => inr None
  end.

End JS.

(* ===================================================================== *)
(** ** Request types of [@google/genai] used by the adapter              *)
(* ===================================================================== *)

Module GenAI.
Import JS.

(** [Part]: of its optional members the adapter reads [text]; [inlineData]
    stands for the members it never reads (images and the like). *)
Record Part : Type := mkPart { text : field string; inlineData : field string }.

Record Content : Type := mkContent { parts : field (list Part); role : field string }.

(** What an element of [ContentListUnion] is at run time: a bare string, a
    bare [Part] (neither has a [parts] key) or a [Content]. *)
Inductive ContentEntry : Type :=
| EString (s : string)
| EPart (p : Part)
| EContent (c : Content).

(** [ContentListUnion = Content | Content[] | PartUnion | PartUnion[]] *)
Inductive ContentListUnion : Type :=
| Single (e : ContentEntry)
| Array (es : list ContentEntry).

Record GenerateContentConfig : Type :=
  mkConfig { temperature : option Q; topP : option Q; topK : option Q }.

Record GenerateContentParameters : Type :=
  mkGenerate { model : string; contents : ContentListUnion; config : option GenerateContentConfig }.

Record CountTokensParameters : Type :=
  mkCount { ct_model : string; ct_contents : ContentListUnion }.

Record EmbedContentParameters : Type :=
  mkEmbed { ec_model : string; ec_contents : ContentListUnion }.

Record CountTokensResponse : Type := mkCountResponse { totalTokens : Z }.

Record EmbedContentResponse : Type := mkEmbedResponse { embeddings : list (list Q) }.

(** The members of the [FinishReason] enumeration the adapter produces. *)
Inductive FinishReason : Type := STOP | MAX_TOKENS.

(** The response side.  [Content] and [Part] are the request's types in
    the source; here [text] holds whatever the provider sent, since the
    adapter copies it from untyped JSON. *)
Module Response.

Record Part : Type := mkPart { text : json }.

Record Content : Type := mkContent { parts : list Part; role : string }.

Record Candidate : Type :=
  mkCandidate { content : Content; finishReason : option FinishReason; index : Z }.

Record SafetyRating : Type := mkSafetyRating { category : string; probability : string }.

Record PromptFeedback : Type := mkPromptFeedback { safetyRatings : list SafetyRating }.

Record UsageMetadata : Type :=
  mkUsage { promptTokenCount : json; candidatesTokenCount : json; totalTokenCount : json }.

(** [usageMetadata] is [None] when the object literal has no such key.
    The getter properties ([text], [data], [functionCalls],
    [executableCode], [codeExecutionResult]) are all set to [undefined]
    by both converters and are left out. *)
Record GenerateContentResponse : Type :=
  mkResponse {
    candidates : list Candidate;
    promptFeedback : PromptFeedback;
    usageMetadata : option UsageMetadata }.

End Response.

End GenAI.

(* ===================================================================== *)
(** ** Effects: promises, the console and the HTTP transport             *)
(* ===================================================================== *)

Module Http.
Import JS.

Record OllamaOptions : Type := mkOptions { temperature : Q; top_p : Q; top_k : Q }.

(** The object handed to [JSON.stringify] as the request body. *)
Record GenerateBody : Type :=
  mkBody { model : string; prompt : string; stream : bool; options : OllamaOptions }.

(** The second argument of [fetch].  The abort signal is not a member: the
    timer that fires it is the deadline [fetch] is called with below. *)
Record RequestInit : Type :=
  mkInit { method : string; headers : list (string * string); body : GenerateBody }.

(** A response body as its reader delivers it: the decoded text of each
    chunk, then either the end of the stream or a failing read.
    [TextDecoder.decode(value, {stream: true})] keeps an incomplete
    sequence for the next call, so the decoded chunks concatenate to the
    decoded body. *)
Record BodyStream : Type := mkStream { reads : list string; failure : option Error }.

Record Response : Type :=
  mkResponse { status : N; statusText : string; stream_body : option BodyStream }.

(** [response.ok] *)
Definition ok (r : Response) : bool := (200 <=? status r)%N && (status r <=? 299)%N.

Inductive Settled : Type :=
| Rejected (e : Error)
| Fulfilled (r : Response).

(** How the server side answers one request: after [settle_ms]
    milliseconds the promise of [fetch] would settle as [outcome], and
    after [body_ms] milliseconds the body of a response has been
    delivered to its end. *)
Record Exchange : Type := mkExchange { settle_ms : N; outcome : Settled; body_ms : N }.

Definition AbortError : Error := mkError "AbortError" "This operation was aborted".

End Http.

Module Effect.
Import JS.

Inductive Event : Type :=
| ConsoleLog (line : string)
| ConsoleError (line : string) (error : Error)
| Fetch (url : string) (init : Http.RequestInit)
| ReleaseLock.

(** A settled promise: what was done, and how it settled. *)
Definition Promise (A : Type) : Type := list Event * (Error + A).

Definition resolve {A : Type} (a : A) : Promise A := ([], inr a).

Definition throw {A : Type} (e : Error) : Promise A := ([], inl e).

Definition perform (ev : Event) : Promise unit := ([ev], inr tt).

Definition lift {A : Type} (r : Error + A) : Promise A := ([], r).

Definition bind {A B : Type} (m : Promise A) (k : A -> Promise B) : Promise B :=
  match m with
  | (evs, inl e) => (evs, inl e)
  | (evs, inr a) => let (evs', r) := k a in ((evs ++ evs')%list, r)
  end.

(** [try { m } catch (error) { handler }] *)
Definition try_catch {A : Type} (m : Promise A) (handler : Error -> Promise A) : Promise A :=
  match m with
  | (evs, inl e) => let (evs', r) := handler e in ((evs ++ evs')%list, r)
  | (evs, inr a) => (evs, inr a)
  end.

Definition is_network_call (ev : Event) : bool :=
  match ev with
  | Fetch _ _ => true
  | _ => false
  end.

(** The network calls among the effects. *)
Definition network_calls (evs : list Event) : list Event := filter is_network_call evs.

End Effect.

Declare Scope promise_scope.
Delimit Scope promise_scope with promise.
Notation "x <- m ;; k" := (Effect.bind m (fun x => k))
  (at level 61, m at next level, right associativity) : promise_scope.
Notation "m ;; k" := (Effect.bind m (fun _ => k))
  (at level 61, right associativity) : promise_scope.

(** Binding in [Error + A], for code that can throw and has no effects. *)
Definition and_then {A B : Type} (r : JS.Error + A) (k : A -> JS.Error + B) : JS.Error + B :=
  match r with
  | inl e => inl e
  | inr a => k a
  end.

Declare Scope throws_scope.
Delimit Scope throws_scope with throws.
Notation "x <- r ;; k" := (and_then r (fun x => k))
  (at level 61, r at next level, right associativity) : throws_scope.

(* ===================================================================== *)
(** ** The adapter                                                       *)
(* ===================================================================== *)

Import JS.
Import Effect.
Import GenAI.Response.
Import GenAI (FinishReason, STOP, MAX_TOKENS).

(** ['ollama' | 'vllm' | 'custom'] *)
Inductive Provider : Type := ollama | vllm | custom.

Definition provider_name (p : Provider) : string :=
  match p with
  | ollama => "ollama"
  | vllm => "vllm"
  | custom => "custom"
  end.

Definition is_ollama (p : Provider) : bool :=
  match p with
  | ollama => true
  | _ => false
  end.

Record LocalModelConfig : Type :=
  mkLocalModelConfig { endpoint : string; model : string; provider : Provider }.

(** The async generator [generateContentStreamOllama] returns, as the
    consumer that iterates it to the end sees it: the effects of the
    body, the chunks it yields in order, and the error that ends the
    iteration, if any. *)
Record StreamRun : Type :=
  mkStreamRun {
    effects : list Event;
    yielded : list GenerateContentResponse;
    thrown : option Error }.

(** The generator object.  Making it runs nothing of its body; [drain]
    is what iterating it does. *)
Record AsyncGenerator : Type := mkGenerator { drain : StreamRun }.

(** The delay of both [setTimeout(() => controller.abort(), 120000)]. *)
Definition TIMEOUT_MS : N := 120000.

(** [request.contents] normalised as both extraction functions do it: of
    an array the elements that are objects with a [parts] key, a lone
    object with a [parts] key as a one-element list, anything else as the
    empty list. *)
Definition is_content_with_parts (e : GenAI.ContentEntry) : bool :=
  match e with
  | GenAI.EContent c => has_key (GenAI.parts c)
  | GenAI.EString _ | GenAI.EPart _ => false
  end.

Definition normalize_contents (contents : GenAI.ContentListUnion) : list GenAI.ContentEntry :=
  match contents with
  | GenAI.Array es => filter is_content_with_parts es
  | GenAI.Single e => if is_content_with_parts e then [e] else []
  end.

(** [content.parts] of an entry, when it is truthy. *)
Definition truthy_parts (e : GenAI.ContentEntry) : option (list GenAI.Part) :=
  match e with
  | GenAI.EContent c =>
      match GenAI.parts c with
      | Value ps => Some ps
      | Absent | Undefined => None
      end
  | GenAI.EString _ | GenAI.EPart _ => None
  end.

(** [if ('text' in part && part.text)]: the text of the part when the
    guard passes. *)
Definition truthy_text (part : GenAI.Part) : option string :=
  match GenAI.text part with
  | Value t => if nonempty t then Some t else None
  | Absent | Undefined => None
  end.

Definition convertToOllamaPrompt (request : GenAI.GenerateContentParameters) : string :=
  let contents := normalize_contents (GenAI.contents request) in
  let prompt :=
    fold_left
      (fun prompt content =>
         match truthy_parts content with
         | Some ps =>
             fold_left
               (fun prompt part =>
                  match truthy_text part with
                  | Some t => prompt ++ (t ++ String LF "")
                  | None => prompt
                  end)
               ps prompt
         | None => prompt
         end)
      contents "" in
  trim prompt.

Definition extractTextFromRequest (request : GenAI.CountTokensParameters) : string :=
  let contents := normalize_contents (GenAI.ct_contents request) in
  let text :=
    fold_left
      (fun text content =>
         match truthy_parts content with
         | Some ps =>
             fold_left
               (fun text part =>
                  match truthy_text part with
                  | Some t => text ++ (t ++ " ")
                  | None => text
                  end)
               ps text
         | None => text
         end)
      contents "" in
  trim text.

(** The texts both extraction loops append, in order. *)
Definition consumed_texts (contents : GenAI.ContentListUnion) : list string :=
  flat_map (fun part => match truthy_text part with Some t => [t] | None => [] end)
    (flat_map (fun e => match truthy_parts e with Some ps => ps | None => [] end)
       (normalize_contents contents)).

Definition convertFromOllamaStreamResponse (data : json) : Error + GenerateContentResponse :=
  (response <- get data "response" ;;
   done <- get data "done" ;;
   inr {| candidates :=
            [ {| content :=
                   {| parts := [ {| text := or_else response (JString "") |} ];
                      role := "model" |};
                 finishReason := if truthy done then Some STOP else None;
                 index := 0 |} ];
          promptFeedback := {| safetyRatings := [] |};
          usageMetadata := None |})%throws.

Section LocalContentGenerator.

(** [JSON.parse]: the parsed value, or the SyntaxError it throws. *)
Variable JSON_parse : string -> Error + json.

(** The [+] of the runtime on operands that are not two safe integers
    with a safe sum: the sum rounded to a double, or the concatenation
    of the operands converted to strings, or the TypeError of a
    conversion that fails (an object with a [toString] member of its
    own).  The result is taken within the values the model has. *)
Variable JS_add : json -> json -> Error + json.

(** The server side: how each request is answered. *)
Variable network : string -> Http.RequestInit -> Http.Exchange.

(** [this.config] *)
Variable config : LocalModelConfig.

(** [a + b] of line 230.  Two safe integers with a safe sum add exactly;
    all other operands go to the runtime. *)
Definition plus (a b : json) : Error + json :=
  match a, b with
  | JNumber x, JNumber y =>
      if is_safe_integer x && is_safe_integer y && is_safe_integer (x + y)
      then inr (JNumber (x + y))
      else JS_add a b
  | _, _ => JS_add a b
  end.

Definition convertFromOllamaResponse (data : json) : Error + GenerateContentResponse :=
  (response <- get data "response" ;;
   done <- get data "done" ;;
   prompt_eval_count <- get data "prompt_eval_count" ;;
   eval_count <- get data "eval_count" ;;
   total <- plus (or_else prompt_eval_count (JNumber 0))
                 (or_else eval_count (JNumber 0)) ;;
   inr {| candidates :=
            [ {| content :=
                   {| parts := [ {| text := or_else response (JString "") |} ];
                      role := "model" |};
                 finishReason := Some (if truthy done then STOP else MAX_TOKENS);
                 index := 0 |} ];
          promptFeedback := {| safetyRatings := [] |};
          usageMetadata :=
            Some {| promptTokenCount := or_else prompt_eval_count (JNumber 0);
                    candidatesTokenCount := or_else eval_count (JNumber 0);
                    totalTokenCount := total |} |})%throws.

(** [fetch(url, {..., signal})] with the abort timer set to [deadline]
    milliseconds: when the exchange has not settled by then the signal
    aborts the request and the promise rejects with an AbortError. *)
Definition fetch (url : string) (init : Http.RequestInit) (deadline : N)
  : Promise Http.Response :=
  (perform (Fetch url init) ;;
   let exchange := network url init in
   if (Http.settle_ms exchange <? deadline)%N then
     match Http.outcome exchange with
     | Http.Rejected e => throw e
     | Http.Fulfilled r => resolve r
     end
   else throw Http.AbortError)%promise.

(** [response.json()]: reads the whole body and parses it. *)
Definition Response_json (r : Http.Response) : Error + json :=
  match Http.stream_body r with
  | None => JSON_parse ""
  | Some b =>
      match Http.failure b with
      | Some e => inl e
      | None => JSON_parse (String.concat "" (Http.reads b))
      end
  end.

Definition generate_url : string := endpoint config ++ "/api/generate".

Definition request_init (request : GenAI.GenerateContentParameters) (prompt : string)
    (stream : bool) : Http.RequestInit :=
  let option_or (read : GenAI.GenerateContentConfig -> option Q) (default : Q) : Q :=
    match GenAI.config request with
    | Some c => match read c with Some q => q | None => default end
    | None => default
    end in
  {| Http.method := "POST";
     Http.headers := [("Content-Type", "application/json")];
     Http.body :=
       {| Http.model := model config;
          Http.prompt := prompt;
          Http.stream := stream;
          Http.options :=
            {| Http.temperature := option_or GenAI.temperature (7 # 10);
               Http.top_p := option_or GenAI.topP (9 # 10);
               Http.top_k := option_or GenAI.topK (40 # 1) |} |} |}.

(** How the server answers the request a call for [request] sends,
    buffered ([stream = false]) or streamed. *)
Definition exchange_of (request : GenAI.GenerateContentParameters) (stream : bool)
  : Http.Exchange :=
  network generate_url (request_init request (convertToOllamaPrompt request) stream).

(** The error thrown at each [throw] of the class, named after the
    taxonomy of the specification. *)
Definition UnsupportedProvider : Error :=
  new_Error ("Unsupported local model provider: " ++ provider_name (provider config)).

Definition NotSupported : Error :=
  new_Error "Embedding not supported with local models. Use Google embedding models.".

Definition UpstreamError (status : N) (statusText : string) : Error :=
  new_Error ("Ollama API error: " ++ string_of_N status ++ " " ++ statusText).

Definition NoResponseBody : Error := new_Error "No response body from Ollama".

Definition Timeout : Error :=
  new_Error ("Local model endpoint timeout after 60s: " ++ generate_url
             ++ " is not responding. Make sure your local model server ("
             ++ provider_name (provider config) ++ ") is running and the model "
             ++ DQUOTE ++ model config ++ DQUOTE ++ " is available.").

Definition RequestFailed (error : Error) : Error :=
  new_Error ("Local model request failed: " ++ message_or_self error).

(** The [catch (error: any)] block, the same text in both methods: what
    it logs and what it throws.  It never completes normally. *)
Definition catch_block (error : Error) : list Event * Error :=
  if String.eqb (name error) "AbortError" then ([], Timeout)
  else ([ConsoleError "[LocalModel] Request failed:" error], RequestFailed error).

Definition rethrown (error : Error) : Error := snd (catch_block error).

Definition on_failure {A : Type} (error : Error) : Promise A :=
  (fst (catch_block error), inl (rethrown error)).

Definition generateContentOllama (request : GenAI.GenerateContentParameters)
  : Promise GenerateContentResponse :=
  let prompt := convertToOllamaPrompt request in
  (perform (ConsoleLog ("[LocalModel] Sending request to " ++ generate_url)) ;;
   perform (ConsoleLog ("[LocalModel] Model: " ++ model config)) ;;
   perform (ConsoleLog ("[LocalModel] Prompt length: "
                        ++ string_of_nat (String.length prompt) ++ " characters")) ;;
   perform (ConsoleLog ("[LocalModel] Prompt preview: " ++ DQUOTE
                        ++ substring 0 200 prompt
                        ++ (if (200 <? String.length prompt)%nat then "..." else "")
                        ++ DQUOTE)) ;;
   try_catch
     (response <- fetch generate_url (request_init request prompt false) TIMEOUT_MS ;;
      if negb (Http.ok response)
      then throw (UpstreamError (Http.status response) (Http.statusText response))
      else
        data <- lift (Response_json response) ;;
        lift (convertFromOllamaResponse data))
     on_failure)%promise.

(** The body of [for (const line of lines)]: the chunks one line yields.
    Everything thrown inside the inner [try] is swallowed by its empty
    [catch]. *)
Definition process_line (line : string) : list GenerateContentResponse :=
  if nonempty (trim line) then
    match (data <- JSON_parse line ;;
           response <- get data "response" ;;
           if truthy response
           then chunk <- convertFromOllamaStreamResponse data ;; inr [chunk]
           else inr [])%throws
    with
    | inr chunks => chunks
    | inl _ => []
    end
  else [].

(** The [while (true)] loop over [reader.read()], started with [buffer]:
    the chunks yielded, and the error of a failing read. *)
Fixpoint read_loop (reads : list string) (failure : option Error) (buffer : string)
  : list GenerateContentResponse * option Error :=
  match reads with
  | [] => ([], failure)
  | value :: reads' =>
      let buffer := buffer ++ value in
      let lines := split_LF buffer in
      let (last, lines) := pop lines in
      let buffer := match last with Some l => l | None => "" end in
      let (later, error) := read_loop reads' failure buffer in
      ((flat_map process_line lines ++ later)%list, error)
  end.

(** A run that ends in the [catch] block, after [chunks] were yielded. *)
Definition failed_run (evs : list Event) (chunks : list GenerateContentResponse)
    (error : Error) : StreamRun :=
  mkStreamRun (evs ++ fst (catch_block error))%list chunks (Some (rethrown error)).

Definition generateContentStreamOllama (request : GenAI.GenerateContentParameters)
  : StreamRun :=
  let prompt := convertToOllamaPrompt request in
  match fetch generate_url (request_init request prompt true) TIMEOUT_MS with
  | (evs, inl error) => failed_run evs [] error
  | (evs, inr response) =>
      if negb (Http.ok response)
      then failed_run evs []
             (UpstreamError (Http.status response) (Http.statusText response))
      else
        match Http.stream_body response with
        | None => failed_run evs [] NoResponseBody
        | Some b =>
            let (chunks, error) := read_loop (Http.reads b) (Http.failure b) "" in
            match error with
            | None => mkStreamRun (evs ++ [ReleaseLock])%list chunks None
            | Some e => failed_run (evs ++ [ReleaseLock])%list chunks e
            end
        end
  end.

Definition generateContent (request : GenAI.GenerateContentParameters)
  : Promise GenerateContentResponse :=
  if is_ollama (provider config) then generateContentOllama request
  else throw UnsupportedProvider.

Definition generateContentStream (request : GenAI.GenerateContentParameters)
  : Promise AsyncGenerator :=
  if is_ollama (provider config)
  then resolve (mkGenerator (generateContentStreamOllama request))
  else throw UnsupportedProvider.

Definition countTokens (request : GenAI.CountTokensParameters)
  : Promise GenAI.CountTokensResponse :=
  let text := extractTextFromRequest request in
  let estimatedTokens := Math_ceil_div (String.length text) 4 in
  resolve {| GenAI.totalTokens := estimatedTokens |}.

Definition embedContent (request : GenAI.EmbedContentParameters)
  : Promise GenAI.EmbedContentResponse :=
  throw NotSupported.

End LocalContentGenerator.

(* ===================================================================== *)
(** ** A reference [JSON.parse]                                          *)
(* ===================================================================== *)

(** The adapter is parametric in [JSON.parse].  To run it on wire data
    this module gives a parser of JSON texts whose numbers are integers
    (it refuses fractions and exponents, which [JNumber] cannot hold, and
    [\u] escapes above the Latin-1 range).  The general theorems below do
    not depend on it. *)
Module JsonText.

Definition is_json_space (c : ascii) : bool :=
  existsb (N.eqb (N_of_ascii c)) [9; 10; 13; 32]%N.

Fixpoint skip_space (s : string) : string :=
  match s with
  | EmptyString => EmptyString
  | String c s' => if is_json_space c then skip_space s' else s
  end.

Definition digit (c : ascii) : option Z :=
  let n := N_of_ascii c in
  if ((48 <=? n) && (n <=? 57))%N then Some (Z.of_N (n - 48)) else None.

Definition hex_digit (c : ascii) : option N :=
  let n := N_of_ascii c in
  if ((48 <=? n) && (n <=? 57))%N then Some (n - 48)%N
  else if ((65 <=? n) && (n <=? 70))%N then Some (n - 55)%N
  else if ((97 <=? n) && (n <=? 102))%N then Some (n - 87)%N
  else None.

Fixpoint digits (s : string) (acc : Z) : Z * string :=
  match s with
  | EmptyString => (acc, s)
  | String c s' =>
      match digit c with
      | Some d => digits s' (10 * acc + d)%Z
      | None => (acc, s)
      end
  end.

Definition starts_fraction_or_exponent (s : string) : bool :=
  match s with
  | String c _ => existsb (Ascii.eqb c) ["."; "e"; "E"]%char
  | EmptyString => false
  end.

Definition unsigned_integer (s : string) : option (Z * string) :=
  match s with
  | EmptyString => None
  | String c s' =>
      match digit c with
      | None => None
      | Some d =>
          let (n, rest) := if (d =? 0)%Z then (0%Z, s') else digits s' d in
          if starts_fraction_or_exponent rest then None else Some (n, rest)
      end
  end.

Definition integer (s : string) : option (Z * string) :=
  match s with
  | String "-" s' =>
      match unsigned_integer s' with
      | Some (n, rest) => Some ((- n)%Z, rest)
      | None => None
      end
  | _ => unsigned_integer s
  end.

Definition simple_escape (c : ascii) : option ascii :=
  match c with
  | "034" => Some "034"
  | "\" => Some "\"
  | "/" => Some "/"
  | "b" => Some "008"
  | "f" => Some "012"
  | "n" => Some "010"
  | "r" => Some "013"
  | "t" => Some "009"
  | _ => None
  end%char.

Definition code_unit (h1 h2 h3 h4 : ascii) : option ascii :=
  match hex_digit h1, hex_digit h2, hex_digit h3, hex_digit h4 with
  | Some 0%N, Some 0%N, Some c, Some d => Some (ascii_of_N (16 * c + d))
  | _, _, _, _ => None
  end.

(** The characters of a string literal after its opening quote, and the
    text after its closing quote. *)
Fixpoint string_literal (s : string) : option (string * string) :=
  match s with
  | EmptyString => None
  | String "034" rest => Some (EmptyString, rest)
  | String "\" (String "u" (String h1 (String h2 (String h3 (String h4 s'))))) =>
      match code_unit h1 h2 h3 h4, string_literal s' with
      | Some c, Some (str, rest) => Some (String c str, rest)
      | _, _ => None
      end
  | String "\" (String e s') =>
      match simple_escape e, string_literal s' with
      | Some c, Some (str, rest) => Some (String c str, rest)
      | _, _ => None
      end
  | String "\" EmptyString => None
  | String c s' =>
      if (N_of_ascii c <? 32)%N then None
      else match string_literal s' with
           | Some (str, rest) => Some (String c str, rest)
           | None => None
           end
  end.

Definition literal (word : string) (s : string) : option string :=
  if String.prefix word s
  then Some (substring (String.length word) (String.length s) s)
  else None.

(** A later duplicate of a key replaces the value of the earlier one. *)
Fixpoint set_member (k : string) (v : json) (members : list (string * json))
  : list (string * json) :=
  match members with
  | [] => [(k, v)]
  | (k', v') :: rest =>
      if String.eqb k' k then (k', v) :: rest else (k', v') :: set_member k v rest
  end.

Fixpoint parse_value (fuel : nat) (s : string) : option (json * string) :=
  match fuel with
  | O => None
  | S fuel' =>
      match skip_space s with
      | EmptyString => None
      | String "{" r =>
          match skip_space r with
          | String "}" r' => Some (JObject [], r')
          | _ => parse_members fuel' r []
          end
      | String "[" r =>
          match skip_space r with
          | String "]" r' => Some (JArray [], r')
          | _ => parse_elements fuel' r []
          end
      | String "034" r =>
          match string_literal r with
          | Some (str, rest) => Some (JString str, rest)
          | None => None
          end
      | String "t" _ as w =>
          match literal "true" w with Some rest => Some (JBool true, rest) | None => None end
      | String "f" _ as w =>
          match literal "false" w with Some rest => Some (JBool false, rest) | None => None end
      | String "n" _ as w =>
          match literal "null" w with Some rest => Some (JNull, rest) | None => None end
      | w =>
          match integer w with
          | Some (n, rest) => Some (JNumber n, rest)
          | None => None
          end
      end
  end
with parse_elements (fuel : nat) (s : string) (acc : list json) : option (json * string) :=
  match fuel with
  | O => None
  | S fuel' =>
      match parse_value fuel' s with
      | None => None
      | Some (v, r) =>
          match skip_space r with
          | String "," r' => parse_elements fuel' r' (acc ++ [v])%list
          | String "]" r' => Some (JArray (acc ++ [v])%list, r')
          | _ => None
          end
      end
  end
with parse_members (fuel : nat) (s : string) (acc : list (string * json))
  : option (json * string) :=
  match fuel with
  | O => None
  | S fuel' =>
      match skip_space s with
      | String "034" r =>
          match string_literal r with
          | None => None
          | Some (k, r1) =>
              match skip_space r1 with
              | String ":" r2 =>
                  match parse_value fuel' r2 with
                  | None => None
                  | Some (v, r3) =>
                      match skip_space r3 with
                      | String "," r4 => parse_members fuel' r4 (set_member k v acc)
                      | String "}" r4 => Some (JObject (set_member k v acc), r4)
                      | _ => None
                      end
                  end
              | _ => None
              end
          end
      | _ => None
      end
  end.

Definition SyntaxError : Error := mkError "SyntaxError" "Unexpected token in JSON".

Definition parse (text : string) : Error + json :=
  match parse_value (2 * String.length text + 2) text with
  | Some (v, rest) =>
      match skip_space rest with
      | EmptyString => inr v
      | String _ _ => inl SyntaxError
      end
  | None => inl SyntaxError
  end.

(** JSON text written with ['] for the quotation mark. *)
Fixpoint quoted (s : string) : string :=
  match s with
  | EmptyString => EmptyString
  | String c s' => String (if Ascii.eqb c "039" then "034"%char else c) (quoted s')
  end.

End JsonText.


(* ===================================================================== *)
(** ** The wording of the specification                                  *)
(* ===================================================================== *)

(** Definitions that follow the sentences of the specification rather
    than the code; the theorems compare the two. *)
Module Spec.

(** The content entries of a request, and the parts of one entry. *)
Definition entries (contents : GenAI.ContentListUnion) : list GenAI.ContentEntry :=
  match contents with
  | GenAI.Single e => [e]
  | GenAI.Array es => es
  end.

Definition content_parts (e : GenAI.ContentEntry) : list GenAI.Part :=
  match e with
  | GenAI.EContent c =>
      match GenAI.parts c with
      | Value ps => ps
      | Absent | Undefined => []
      end
  | GenAI.EString _ | GenAI.EPart _ => []
  end.

(** A text part is a part that carries a text. *)
Definition text_of_part (p : GenAI.Part) : list string :=
  match GenAI.text p with
  | Value t => [t]
  | Absent | Undefined => []
  end.

(** "All text parts across all content entries, in order." *)
Definition text_parts (contents : GenAI.ContentListUnion) : list string :=
  flat_map text_of_part (flat_map content_parts (entries contents)).

(** "Each part followed by one newline, with the whole result trimmed." *)
Definition prompt_of (texts : list string) : string :=
  trim (String.concat "" (map (fun t => t ++ String LF "") texts)).

(** "Joining all text parts with single spaces and trimming." *)
Definition joined (texts : list string) : string :=
  trim (String.concat " " texts).

(** [k] is the ceiling of [n / 4]: the least integer with [n <= 4 k]. *)
Definition is_ceil_quarter (n : nat) (k : Z) : Prop :=
  (Z.of_nat n <= 4 * k /\ 4 * k < Z.of_nat n + 4)%Z.

Definition is_string_entry (e : GenAI.ContentEntry) : bool :=
  match e with
  | GenAI.EString _ => true
  | _ => false
  end.

(** "Entries that are objects with a [parts] field." *)
Definition object_with_parts (e : GenAI.ContentEntry) : bool :=
  match e with
  | GenAI.EContent c =>
      match GenAI.parts c with
      | Absent => false
      | Undefined | Value _ => true
      end
  | GenAI.EString _ | GenAI.EPart _ => false
  end.

(** The provider response of the data model:
    [{ response: string, done: boolean, prompt_eval_count?: number,
       eval_count?: number }], any member of which may be missing. *)
Definition typed_members (members : list (string * json)) : bool :=
  match member "response" members with
  | None | Some (JString _) => true
  | Some _ => false
  end
  && match member "done" members with
     | None | Some (JBool _) => true
     | Some _ => false
     end
  && match member "prompt_eval_count" members with
     | None | Some (JNumber _) => true
     | Some _ => false
     end
  && match member "eval_count" members with
     | None | Some (JNumber _) => true
     | Some _ => false
     end.

Definition is_ollama_response (data : json) : bool :=
  match data with
  | JObject members => typed_members members
  | _ => false
  end.

(** A parsed stream line: when it is an object, it is a provider
    response. *)
Definition is_ollama_line (data : json) : bool :=
  match data with
  | JObject members => typed_members members
  | _ => true
  end.

(** "The object's [response] field (the empty string when absent)." *)
Definition response_field (data : json) : string :=
  match data with
  | JObject members =>
      match member "response" members with
      | Some (JString s) => s
      | _ => ""
      end
  | _ => ""
  end.

(** "[done] is true." *)
Definition done_is_true (data : json) : bool :=
  match data with
  | JObject members =>
      match member "done" members with
      | Some (JBool b) => b
      | _ => false
      end
  | _ => false
  end.

(** "[prompt_eval_count] and [eval_count] (each defaulting to 0)." *)
Definition count_field (key : string) (data : json) : Z :=
  match data with
  | JObject members =>
      match member key members with
      | Some (JNumber n) => n
      | _ => 0%Z
      end
  | _ => 0%Z
  end.

(** The two counters are token counts: safe integers whose sum is a
    safe integer too. *)
Definition safe_counters (data : json) : bool :=
  is_safe_integer (count_field "prompt_eval_count" data)
  && is_safe_integer (count_field "eval_count" data)
  && is_safe_integer (count_field "prompt_eval_count" data
                      + count_field "eval_count" data).

(** "Exactly one candidate whose role is model and whose single text
    part" is [t], with the given finish reason and usage counters. *)
Definition single_candidate (t : json) (finish : option FinishReason)
    (usage : option UsageMetadata) : GenerateContentResponse :=
  {| candidates :=
       [ {| content := {| parts := [ {| text := t |} ]; role := "model" |};
            finishReason := finish;
            index := 0 |} ];
     promptFeedback := {| safetyRatings := [] |};
     usageMetadata := usage |}.

(** The chunk a stream line stands for: one when the line parses and
    has a non-empty [response], none otherwise. *)
Definition chunk_of_line (JSON_parse : string -> Error + json) (line : string)
  : list GenerateContentResponse :=
  match JSON_parse line with
  | inr data =>
      if nonempty (response_field data)
      then [ single_candidate (JString (response_field data))
               (if done_is_true data then Some STOP else None) None ]
      else []
  | inl _ => []
  end.

(** The body text made of complete lines. *)
Definition complete_lines (lines : list string) : string :=
  String.concat "" (map (fun l => l ++ String LF "") lines).

(** A line holds no line feed. *)
Fixpoint no_LF (s : string) : bool :=
  match s with
  | EmptyString => true
  | String c s' => negb (is_LF c) && no_LF s'
  end.

(** The shape every response and chunk is said to have. *)
Definition well_shaped (r : GenerateContentResponse) : Prop :=
  exists c p,
    candidates r = [c] /\
    role (content c) = "model" /\
    index c = 0%Z /\
    parts (content c) = [p] /\
    safetyRatings (promptFeedback r) = [].

(** [needle] occurs in [s]. *)
Definition mentions (s needle : string) : Prop :=
  exists before after, s = before ++ needle ++ after.

End Spec.

(* ===================================================================== *)
(** ** Sample inputs                                                     *)
(* ===================================================================== *)

Module Sample.

Definition text_part (t : string) : GenAI.Part := GenAI.mkPart (Value t) Absent.

Definition user (texts : list string) : GenAI.ContentEntry :=
  GenAI.EContent (GenAI.mkContent (Value (map text_part texts)) (Value "user")).

(** A generation request with one user entry holding the given texts. *)
Definition generate (texts : list string) : GenAI.GenerateContentParameters :=
  GenAI.mkGenerate "gemma3:27b" (GenAI.Array [user texts]) None.

Definition count (texts : list string) : GenAI.CountTokensParameters :=
  GenAI.mkCount "gemma3:27b" (GenAI.Array [user texts]).

Definition local (p : Provider) : LocalModelConfig :=
  mkLocalModelConfig "http://localhost:11434" "gemma3:27b" p.

(** A server that answers every request after [ms] milliseconds. *)
Definition server (ms : N) (answer : Http.Settled)
  : string -> Http.RequestInit -> Http.Exchange :=
  fun _ _ => Http.mkExchange ms answer ms.

Definition replies (status : N) (statusText : string) (chunks : list string)
  : Http.Settled :=
  Http.Fulfilled (Http.mkResponse status statusText (Some (Http.mkStream chunks None))).

(** A server that gives that answer after 10 milliseconds. *)
Definition answered (status : N) (statusText : string) (chunks : list string)
  : string -> Http.RequestInit -> Http.Exchange :=
  server 10 (replies status statusText chunks).

Definition ask : GenAI.GenerateContentParameters := generate ["Hello"].

(** A stand-in for the runtime's [+] outside the safe integers.  It
    throws what [+] throws on an operand that cannot be converted to a
    primitive, such as [unprintable] below; the sample runs consult it
    on such operands only. *)
Definition add : json -> json -> Error + json :=
  fun _ _ => inl (mkError "TypeError" "Cannot convert object to primitive value").



(** A server whose response arrives after [ms] milliseconds and whose
    body takes until [body] milliseconds. *)
Definition slow_body_server (ms body : N) (answer : Http.Settled)
  : string -> Http.RequestInit -> Http.Exchange :=
  fun _ _ => Http.mkExchange ms answer body.

Definition ollama_at_localhost : LocalModelConfig := local ollama.

(** A server whose response arrives after 130 seconds. *)
Definition timed_out : string -> Http.RequestInit -> Http.Exchange :=
  server 130000 (replies 200 "OK" []).

(** A server that answers with status 500. *)
Definition failing : string -> Http.RequestInit -> Http.Exchange :=
  answered 500 "Internal Server Error" [].

(** A server that cannot be reached. *)
Definition unreachable : string -> Http.RequestInit -> Http.Exchange :=
  server 10 (Http.Rejected (mkError "TypeError" "fetch failed")).

(** A body that delivers one complete line and then fails. *)
Definition terminated : Http.BodyStream :=
  Http.mkStream [JsonText.quoted "{'response':'a','done':false}" ++ String LF ""]
    (Some (mkError "TypeError" "terminated")).

Definition cut_off : string -> Http.RequestInit -> Http.Exchange :=
  server 10 (Http.Fulfilled (Http.mkResponse 200 "OK" (Some terminated))).

(** The buffered answer of the specification's example. *)
Definition hi_body : string :=
  JsonText.quoted "{'response':'hi','done':true,'prompt_eval_count':3,'eval_count':2}".

Definition hi_data : json :=
  JObject [("response", JString "hi"); ("done", JBool true);
           ("prompt_eval_count", JNumber 3); ("eval_count", JNumber 2)].

(** The two stream lines of the specification's example. *)
Definition line_a : string := JsonText.quoted "{'response':'a','done':false}".

Definition line_b : string := JsonText.quoted "{'response':'b','done':true}".

(** The two lines as three reads that cut through both of them. *)
Definition two_lines_reads : list string :=
  [ JsonText.quoted "{'response':'a','do";
    JsonText.quoted "ne':false}" ++ String LF (JsonText.quoted "{'response':'b',");
    JsonText.quoted "'done':true}" ++ String LF "" ].

(** The two lines with a malformed one between them, in one read. *)
Definition with_noise_reads : list string :=
  [ line_a ++ String LF ("not json" ++ String LF (line_b ++ String LF "")) ].

Definition chunk (t : string) (finish : option FinishReason) : GenerateContentResponse :=
  Spec.single_candidate (JString t) finish None.

End Sample.

(* ===================================================================== *)
(** ** Measures and relations used by the further properties             *)
(* ===================================================================== *)

Module Observe.

(** The number of line feeds of a text. *)
Fixpoint count_LF (s : string) : nat :=
  match s with
  | EmptyString => 0
  | String c s' => if is_LF c then S (count_LF s') else count_LF s'
  end.

(** The segment after the last line feed of a text: what the read loop
    keeps in [buffer] once it has consumed the text. *)
Definition carried (text : string) : string :=
  match fst (pop (split_LF text)) with
  | Some l => l
  | None => ""
  end.

(** A line that [if (line.trim())] lets through. *)
Definition is_nonblank (line : string) : bool := nonempty (trim line).

(** Two texts with the same characters at the same places, except that
    where one has a white space the other may have any white space. *)
Fixpoint same_layout (a b : string) : bool :=
  match a, b with
  | EmptyString, EmptyString => true
  | String x a', String y b' =>
      (Ascii.eqb x y || (is_white_space x && is_white_space y)) && same_layout a' b'
  | _, _ => false
  end.

(** A text made of white space only (the empty text included). *)
Fixpoint all_white (s : string) : bool :=
  match s with
  | EmptyString => true
  | String c s' => is_white_space c && all_white s'
  end.

Definition first_char (s : string) : option ascii :=
  match s with
  | EmptyString => None
  | String c _ => Some c
  end.

Fixpoint last_char (s : string) : option ascii :=
  match s with
  | EmptyString => None
  | String c s' =>
      match last_char s' with
      | Some l => Some l
      | None => Some c
      end
  end.

Definition is_console_error (ev : Event) : bool :=
  match ev with
  | ConsoleError _ _ => true
  | _ => false
  end.

Definition is_release (ev : Event) : bool :=
  match ev with
  | ReleaseLock => true
  | _ => false
  end.

(** A response whose body stream is [b], answered with status 200. *)
Definition ok_with (b : Http.BodyStream) : Http.Response :=
  Http.mkResponse 200 "OK" (Some b).

(** A stream line without [response], as the provider ends a stream. *)
Definition line_done : string := JsonText.quoted "{'done':true}".

End Observe.

(* ===================================================================== *)
(** ** Facts about strings                                               *)
(* ===================================================================== *)

Section StringFacts.

Lemma str_app_nil_r (s : string) : s ++ "" = s.
Proof. induction s as [|c s IH]; simpl; [reflexivity | now rewrite IH]. Qed.

Lemma str_app_assoc (a b c : string) : (a ++ b) ++ c = a ++ (b ++ c).
Proof. induction a as [|x a IH]; simpl; [reflexivity | now rewrite IH]. Qed.

Lemma trimEnd_app_white (s : string) (c : ascii) :
  is_white_space c = true -> trimEnd (s ++ String c "") = trimEnd s.
Proof.
  intros Hc. induction s as [|x s IH]; simpl.
  - now rewrite Hc.
  - now rewrite IH.
Qed.

Lemma trimStart_app_white (s : string) (c : ascii) :
  is_white_space c = true ->
  trimStart (s ++ String c "") =
  if nonempty (trimStart s) then trimStart s ++ String c "" else "".
Proof.
  intros Hc. induction s as [|x s IH]; simpl.
  - now rewrite Hc.
  - destruct (is_white_space x); [exact IH | reflexivity].
Qed.

(** Trimming forgets one trailing white space. *)
Lemma trim_app_white (s : string) (c : ascii) :
  is_white_space c = true -> trim (s ++ String c "") = trim s.
Proof.
  intros Hc. unfold trim. rewrite trimStart_app_white by exact Hc.
  destruct (trimStart s) as [|x t] eqn:E; simpl nonempty; cbv iota.
  - reflexivity.
  - now apply trimEnd_app_white.
Qed.

(** Appending a separator after every text is joining with the
    separator and appending one more. *)
Lemma concat_suffixed (sep : string) (ts : list string) :
  String.concat "" (map (fun t => t ++ sep) ts) =
  match ts with
  | [] => ""
  | _ :: _ => String.concat sep ts ++ sep
  end.
Proof.
  induction ts as [|t ts IH]; [reflexivity|].
  cbn [map]. destruct ts as [|t' ts].
  - reflexivity.
  - change (String.concat "" ((t ++ sep) :: map (fun t0 => t0 ++ sep) (t' :: ts)))
      with ((t ++ sep) ++ "" ++ String.concat "" (map (fun t0 => t0 ++ sep) (t' :: ts))).
    rewrite IH. simpl String.concat. simpl append at 2.
    now rewrite !str_app_assoc.
Qed.

End StringFacts.

(* ===================================================================== *)
(** ** Text extraction                                                   *)
(* ===================================================================== *)

Section Extraction.

Lemma fold_parts (sep : string) (ps : list GenAI.Part) (acc : string) :
  fold_left
    (fun acc part =>
       match truthy_text part with
       | Some t => acc ++ (t ++ sep)
       | None => acc
       end) ps acc
  = acc ++ String.concat ""
             (map (fun t => t ++ sep)
                (flat_map (fun part => match truthy_text part with
                                       | Some t => [t]
                                       | None => []
                                       end) ps)).
Proof.
  revert acc. induction ps as [|p ps IH]; intros acc; simpl.
  - now rewrite str_app_nil_r.
  - rewrite IH. destruct (truthy_text p) as [t|]; simpl; [|reflexivity].
    destruct (flat_map _ ps); simpl.
    + now rewrite !str_app_nil_r.
    + now rewrite !str_app_assoc.
Qed.

Lemma concat_nosep_app (xs ys : list string) :
  String.concat "" (xs ++ ys)%list = String.concat "" xs ++ String.concat "" ys.
Proof.
  induction xs as [|x xs IH]; [reflexivity|].
  destruct xs as [|x' xs].
  - simpl. destruct ys; simpl; [now rewrite str_app_nil_r | reflexivity].
  - change (String.concat "" ((x :: x' :: xs) ++ ys)%list)
      with (x ++ "" ++ String.concat "" ((x' :: xs) ++ ys)%list).
    rewrite IH. simpl. now rewrite !str_app_assoc.
Qed.

Lemma fold_contents (sep : string) (es : list GenAI.ContentEntry) (acc : string) :
  fold_left
    (fun acc content =>
       match truthy_parts content with
       | Some ps =>
           fold_left
             (fun acc part =>
                match truthy_text part with
                | Some t => acc ++ (t ++ sep)
                | None => acc
                end) ps acc
       | None => acc
       end) es acc
  = acc ++ String.concat ""
             (map (fun t => t ++ sep)
                (flat_map (fun part => match truthy_text part with
                                       | Some t => [t]
                                       | None => []
                                       end)
                   (flat_map (fun e => match truthy_parts e with
                                       | Some ps => ps
                                       | None => []
                                       end) es))).
Proof.
  revert acc. induction es as [|e es IH]; intros acc; simpl.
  - now rewrite str_app_nil_r.
  - rewrite IH. destruct (truthy_parts e) as [ps|]; [|reflexivity].
    rewrite fold_parts, flat_map_app, map_app, concat_nosep_app.
    now rewrite str_app_assoc.
Qed.

(** The prompt is the consumed texts, a line feed after each, trimmed. *)
Lemma convertToOllamaPrompt_consumed (request : GenAI.GenerateContentParameters) :
  convertToOllamaPrompt request
  = Spec.prompt_of (consumed_texts (GenAI.contents request)).
Proof.
  unfold convertToOllamaPrompt, Spec.prompt_of, consumed_texts.
  now rewrite (fold_contents (String LF "")).
Qed.

Lemma extractTextFromRequest_consumed (request : GenAI.CountTokensParameters) :
  extractTextFromRequest request
  = trim (String.concat ""
            (map (fun t => t ++ " ") (consumed_texts (GenAI.ct_contents request)))).
Proof.
  unfold extractTextFromRequest, consumed_texts.
  now rewrite (fold_contents " ").
Qed.

(** The consumed texts are the text parts that are not empty. *)
Lemma consumed_parts (ps : list GenAI.Part) :
  flat_map (fun part => match truthy_text part with Some t => [t] | None => [] end) ps
  = filter nonempty (flat_map Spec.text_of_part ps).
Proof.
  induction ps as [|p ps IH]; [reflexivity|].
  cbn [flat_map]. rewrite filter_app, IH. f_equal.
  unfold truthy_text, Spec.text_of_part.
  destruct (GenAI.text p) as [| |t]; try reflexivity.
  simpl. now destruct (nonempty t).
Qed.

Lemma normalized_parts (es : list GenAI.ContentEntry) :
  flat_map (fun e => match truthy_parts e with Some ps => ps | None => [] end)
    (filter is_content_with_parts es)
  = flat_map Spec.content_parts es.
Proof.
  induction es as [|e es IH]; [reflexivity|].
  cbn [filter flat_map]. rewrite <- IH.
  destruct e as [s|p|c]; try reflexivity.
  unfold is_content_with_parts, Spec.content_parts, has_key.
  destruct c as [ps r]. destruct ps as [| |ps]; reflexivity.
Qed.

Lemma consumed_texts_spec (contents : GenAI.ContentListUnion) :
  consumed_texts contents = filter nonempty (Spec.text_parts contents).
Proof.
  unfold consumed_texts, Spec.text_parts. rewrite consumed_parts. do 2 f_equal.
  destruct contents as [e|es]; simpl.
  - destruct e as [s|p|c]; try reflexivity.
    unfold is_content_with_parts, has_key.
    destruct c as [ps r]. destruct ps as [| |ps]; reflexivity.
  - apply normalized_parts.
Qed.

End Extraction.

(* ===================================================================== *)
(** ** Prompt construction and token counting                            *)
(* ===================================================================== *)

Section PromptAndTokens.

Lemma normalize_contents_filter (contents : GenAI.ContentListUnion) :
  normalize_contents contents = filter is_content_with_parts (Spec.entries contents).
Proof.
  destruct contents as [e|es]; simpl; [|reflexivity].
  now destruct (is_content_with_parts e).
Qed.

Lemma object_with_parts_is_filter (e : GenAI.ContentEntry) :
  is_content_with_parts e = Spec.object_with_parts e.
Proof.
  destruct e as [s|p|c]; reflexivity.
Qed.

Lemma Math_ceil_div_quarter (n : nat) : Spec.is_ceil_quarter n (Math_ceil_div n 4).
Proof.
  unfold Spec.is_ceil_quarter, Math_ceil_div, Qceiling, Qfloor. cbn [Qopp Qnum Qden].
  pose proof (Z.div_mod (- Z.of_nat n) 4 ltac:(lia)) as Hdm.
  pose proof (Z.mod_pos_bound (- Z.of_nat n) 4 ltac:(lia)) as Hb.
  lia.
Qed.

Lemma is_ceil_quarter_mono (n m : nat) (k l : Z) :
  Spec.is_ceil_quarter n k -> Spec.is_ceil_quarter m l -> (n <= m)%nat -> (k <= l)%Z.
Proof. unfold Spec.is_ceil_quarter. lia. Qed.

(** The text [countTokens] measures is the non-empty text parts joined
    with single spaces, trimmed. *)
Lemma extractTextFromRequest_joined (request : GenAI.CountTokensParameters) :
  extractTextFromRequest request
  = Spec.joined (filter nonempty (Spec.text_parts (GenAI.ct_contents request))).
Proof.
  rewrite extractTextFromRequest_consumed, consumed_texts_spec, concat_suffixed.
  unfold Spec.joined.
  destruct (filter nonempty (Spec.text_parts (GenAI.ct_contents request))); [reflexivity|].
  now apply trim_app_white.
Qed.

(** C3, as the code has it.  The prompt is the concatenation of the
    non-empty text parts of all content entries, in order, each followed
    by one line feed, the whole trimmed.  A request without text parts
    gives the empty prompt, and the parts "Hello", "world" give
    "Hello", a line feed, "world". *)
Theorem prompt_of_nonempty_text_parts :
  (forall request,
      convertToOllamaPrompt request
      = Spec.prompt_of (filter nonempty (Spec.text_parts (GenAI.contents request))))
  /\ (forall request,
         Spec.text_parts (GenAI.contents request) = [] ->
         convertToOllamaPrompt request = "")
  /\ (forall request,
         Spec.text_parts (GenAI.contents request) = ["Hello"; "world"] ->
         convertToOllamaPrompt request = "Hello" ++ String LF "world").
Proof.
  assert (H : forall request,
             convertToOllamaPrompt request
             = Spec.prompt_of (filter nonempty (Spec.text_parts (GenAI.contents request)))).
  { intros request. now rewrite convertToOllamaPrompt_consumed, consumed_texts_spec. }
  split; [exact H|]. split; intros request Htexts; rewrite H, Htexts; reflexivity.
Qed.

Lemma prompt_of_nonempty_text_parts_witness :
  convertToOllamaPrompt (Sample.generate []) = ""
  /\ convertToOllamaPrompt (Sample.generate ["Hello"; "world"])
     = "Hello" ++ String LF "world".
Proof.
  split.
  - apply (proj1 (proj2 prompt_of_nonempty_text_parts)). reflexivity.
  - apply (proj2 (proj2 prompt_of_nonempty_text_parts)). reflexivity.
Defined.

(** C3 as stated fails: an empty text part between two others gets no
    line feed of its own.  For the parts "a", "", "b" the code sends
    a, LF, b where the stated rule gives a, LF, LF, b. *)
Lemma prompt_of_all_text_parts_fails :
  convertToOllamaPrompt (Sample.generate ["a"; ""; "b"]) = "a" ++ String LF "b"
  /\ Spec.prompt_of (Spec.text_parts (GenAI.contents (Sample.generate ["a"; ""; "b"])))
     = "a" ++ String LF (String LF "b")
  /\ ~ (forall request,
          convertToOllamaPrompt request
          = Spec.prompt_of (Spec.text_parts (GenAI.contents request))).
Proof.
  split; [reflexivity|]. split; [reflexivity|].
  intros H. specialize (H (Sample.generate ["a"; ""; "b"])). discriminate H.
Qed.

(** C4, as the code has it.  [countTokens] returns the ceiling of L / 4,
    L being the length of the non-empty text parts joined with single
    spaces and trimmed; the count is monotonic in L; length 0 gives 0,
    length 4 gives 1 and length 5 gives 2. *)
Theorem countTokens_ceil_quarter :
  (forall request,
      exists k,
        countTokens request = resolve {| GenAI.totalTokens := k |}
        /\ Spec.is_ceil_quarter
             (String.length
                (Spec.joined (filter nonempty (Spec.text_parts (GenAI.ct_contents request)))))
             k)
  /\ (forall r1 r2 k1 k2,
         countTokens r1 = resolve {| GenAI.totalTokens := k1 |} ->
         countTokens r2 = resolve {| GenAI.totalTokens := k2 |} ->
         (String.length (extractTextFromRequest r1)
          <= String.length (extractTextFromRequest r2))%nat ->
         (k1 <= k2)%Z)
  /\ (forall request,
         String.length (extractTextFromRequest request) = 0%nat ->
         countTokens request = resolve {| GenAI.totalTokens := 0 |})
  /\ (forall request,
         String.length (extractTextFromRequest request) = 4%nat ->
         countTokens request = resolve {| GenAI.totalTokens := 1 |})
  /\ (forall request,
         String.length (extractTextFromRequest request) = 5%nat ->
         countTokens request = resolve {| GenAI.totalTokens := 2 |}).
Proof.
  split; [|split; [|repeat split]].
  - intros request. eexists. split; [reflexivity|].
    rewrite <- extractTextFromRequest_joined. apply Math_ceil_div_quarter.
  - intros r1 r2 k1 k2 H1 H2 Hle. unfold countTokens, resolve in H1, H2.
    injection H1 as <-. injection H2 as <-.
    eapply is_ceil_quarter_mono; eauto using Math_ceil_div_quarter.
  - intros request HL. unfold countTokens. now rewrite HL.
  - intros request HL. unfold countTokens. now rewrite HL.
  - intros request HL. unfold countTokens. now rewrite HL.
Qed.

Lemma countTokens_ceil_quarter_witness :
  countTokens (Sample.count []) = resolve {| GenAI.totalTokens := 0 |}
  /\ countTokens (Sample.count ["abcd"]) = resolve {| GenAI.totalTokens := 1 |}
  /\ countTokens (Sample.count ["ab"; "cd"]) = resolve {| GenAI.totalTokens := 2 |}.
Proof.
  destruct countTokens_ceil_quarter as (_ & _ & H0 & H4 & H5).
  split; [|split].
  - apply H0. reflexivity.
  - apply H4. reflexivity.
  - apply H5. reflexivity.
Defined.

(** C4 as stated fails: joining all text parts puts two spaces around
    an empty one.  For the parts "ab", "", "c" the code counts the 4
    characters of "ab c", one token, where the stated rule counts the 5
    characters of "ab  c", two tokens. *)
Lemma countTokens_all_text_parts_fails :
  countTokens (Sample.count ["ab"; ""; "c"]) = resolve {| GenAI.totalTokens := 1 |}
  /\ Spec.joined (Spec.text_parts (GenAI.ct_contents (Sample.count ["ab"; ""; "c"])))
     = "ab  c"
  /\ ~ (forall request k,
          countTokens request = resolve {| GenAI.totalTokens := k |} ->
          Spec.is_ceil_quarter
            (String.length (Spec.joined (Spec.text_parts (GenAI.ct_contents request)))) k).
Proof.
  split; [reflexivity|]. split; [reflexivity|].
  intros H. specialize (H (Sample.count ["ab"; ""; "c"]) 1%Z eq_refl).
  unfold Spec.is_ceil_quarter in H. simpl in H. lia.
Qed.

Lemma normalize_contents_objects (contents : GenAI.ContentListUnion) :
  normalize_contents contents = filter Spec.object_with_parts (Spec.entries contents).
Proof.
  rewrite normalize_contents_filter. apply filter_ext, object_with_parts_is_filter.
Qed.

Lemma objects_without_strings (es : list GenAI.ContentEntry) :
  filter Spec.object_with_parts (filter (fun e => negb (Spec.is_string_entry e)) es)
  = filter Spec.object_with_parts es.
Proof.
  induction es as [|e es IH]; [reflexivity|].
  destruct e as [s|p|c]; simpl; rewrite ?IH; reflexivity.
Qed.

(** C9.  String entries contribute nothing to text extraction: removing
    them from an array changes neither the prompt nor the counted text,
    both of which depend only on the entries that are objects with a
    [parts] field; a request whose contents is a single string gives the
    empty prompt and a token count of 0. *)
Theorem string_entries_contribute_nothing :
  (forall model s config,
      convertToOllamaPrompt (GenAI.mkGenerate model (GenAI.Single (GenAI.EString s)) config)
      = "")
  /\ (forall model s,
         countTokens (GenAI.mkCount model (GenAI.Single (GenAI.EString s)))
         = resolve {| GenAI.totalTokens := 0 |})
  /\ (forall model es config,
         convertToOllamaPrompt (GenAI.mkGenerate model (GenAI.Array es) config)
         = convertToOllamaPrompt
             (GenAI.mkGenerate model
                (GenAI.Array (filter (fun e => negb (Spec.is_string_entry e)) es)) config))
  /\ (forall model es,
         extractTextFromRequest (GenAI.mkCount model (GenAI.Array es))
         = extractTextFromRequest
             (GenAI.mkCount model
                (GenAI.Array (filter (fun e => negb (Spec.is_string_entry e)) es))))
  /\ (forall r r',
         filter Spec.object_with_parts (Spec.entries (GenAI.contents r))
         = filter Spec.object_with_parts (Spec.entries (GenAI.contents r')) ->
         convertToOllamaPrompt r = convertToOllamaPrompt r')
  /\ (forall r r',
         filter Spec.object_with_parts (Spec.entries (GenAI.ct_contents r))
         = filter Spec.object_with_parts (Spec.entries (GenAI.ct_contents r')) ->
         extractTextFromRequest r = extractTextFromRequest r').
Proof.
  assert (Hp : forall r r',
             filter Spec.object_with_parts (Spec.entries (GenAI.contents r))
             = filter Spec.object_with_parts (Spec.entries (GenAI.contents r')) ->
             convertToOllamaPrompt r = convertToOllamaPrompt r').
  { intros r r' H. rewrite !convertToOllamaPrompt_consumed. unfold consumed_texts.
    now rewrite !normalize_contents_objects, H. }
  assert (Hc : forall r r',
             filter Spec.object_with_parts (Spec.entries (GenAI.ct_contents r))
             = filter Spec.object_with_parts (Spec.entries (GenAI.ct_contents r')) ->
             extractTextFromRequest r = extractTextFromRequest r').
  { intros r r' H. rewrite !extractTextFromRequest_consumed. unfold consumed_texts.
    now rewrite !normalize_contents_objects, H. }
  repeat split; try assumption.
  - intros model es config. apply Hp. simpl. now rewrite objects_without_strings.
  - intros model es. apply Hc. simpl. now rewrite objects_without_strings.
Qed.

Lemma string_entries_contribute_nothing_witness :
  convertToOllamaPrompt
    (GenAI.mkGenerate "m"
       (GenAI.Array [GenAI.EString "lost"; Sample.user ["kept"]; GenAI.EPart (Sample.text_part "bare")])
       None)
  = convertToOllamaPrompt (Sample.generate ["kept"]).
Proof.
  apply (proj1 (proj2 (proj2 (proj2 (proj2 string_entries_contribute_nothing))))).
  reflexivity.
Defined.

End PromptAndTokens.

(* ===================================================================== *)
(** ** The calls                                                         *)
(* ===================================================================== *)

Section Calls.

Variable JSON_parse : string -> Error + json.
Variable JS_add : json -> json -> Error + json.
Variable network : string -> Http.RequestInit -> Http.Exchange.
Variable config : LocalModelConfig.

Lemma snd_bind {A B : Type} (m : Promise A) (k : A -> Promise B) :
  snd (bind m k) = match snd m with
                   | inl e => inl e
                   | inr a => snd (k a)
                   end.
Proof.
  destruct m as [evs [e|a]]; simpl; [reflexivity|]. now destruct (k a).
Qed.

Lemma snd_try_catch {A : Type} (m : Promise A) (handler : Error -> Promise A) :
  snd (try_catch m handler) = match snd m with
                              | inl e => snd (handler e)
                              | inr a => inr a
                              end.
Proof.
  destruct m as [evs [e|a]]; simpl; [|reflexivity]. now destruct (handler e).
Qed.

Lemma snd_fetch (url : string) (init : Http.RequestInit) (deadline : N) :
  snd (fetch network url init deadline)
  = if (Http.settle_ms (network url init) <? deadline)%N
    then match Http.outcome (network url init) with
         | Http.Rejected e => inl e
         | Http.Fulfilled r => inr r
         end
    else inl Http.AbortError.
Proof.
  unfold fetch. rewrite snd_bind. simpl.
  destruct (Http.settle_ms (network url init) <? deadline)%N; [|reflexivity].
  now destruct (Http.outcome (network url init)).
Qed.

Lemma snd_on_failure {A : Type} (error : Error) :
  snd (@on_failure config A error) = inl (rethrown config error).
Proof. reflexivity. Qed.

(** How [generateContentOllama] settles, step by step. *)
Lemma generateContentOllama_settles (request : GenAI.GenerateContentParameters) :
  snd (generateContentOllama JSON_parse JS_add network config request)
  = let exchange := exchange_of network config request false in
    if (Http.settle_ms exchange <? TIMEOUT_MS)%N then
      match Http.outcome exchange with
      | Http.Rejected e => inl (rethrown config e)
      | Http.Fulfilled response =>
          if Http.ok response then
            match Response_json JSON_parse response with
            | inl e => inl (rethrown config e)
            | inr data =>
                match convertFromOllamaResponse JS_add data with
                | inl e => inl (rethrown config e)
                | inr r => inr r
                end
            end
          else inl (rethrown config (UpstreamError (Http.status response) (Http.statusText response)))
      end
    else inl (rethrown config Http.AbortError).
Proof.
  unfold generateContentOllama. rewrite !snd_bind. cbn [perform snd].
  rewrite snd_try_catch, snd_bind, snd_fetch. unfold exchange_of. cbv zeta.
  destruct (Http.settle_ms _ <? TIMEOUT_MS)%N; [|apply snd_on_failure].
  destruct (Http.outcome _) as [e|response]; [apply snd_on_failure|].
  destruct (Http.ok response); cbn [negb]; [|apply snd_on_failure].
  rewrite snd_bind. unfold lift. cbn [snd].
  destruct (Response_json JSON_parse response) as [e|data]; [apply snd_on_failure|].
  destruct (convertFromOllamaResponse JS_add data) as [e|r]; [apply snd_on_failure|reflexivity].
Qed.

Lemma failed_run_spec (evs : list Event) (chunks : list GenerateContentResponse)
    (error : Error) :
  yielded (failed_run config evs chunks error) = chunks
  /\ thrown (failed_run config evs chunks error) = Some (rethrown config error).
Proof. split; reflexivity. Qed.

(** What iterating [generateContentStreamOllama] yields and how it ends. *)
Lemma generateContentStreamOllama_run (request : GenAI.GenerateContentParameters) :
  let run := generateContentStreamOllama JSON_parse network config request in
  (yielded run, thrown run)
  = let exchange := exchange_of network config request true in
    if (Http.settle_ms exchange <? TIMEOUT_MS)%N then
      match Http.outcome exchange with
      | Http.Rejected e => ([], Some (rethrown config e))
      | Http.Fulfilled response =>
          if Http.ok response then
            match Http.stream_body response with
            | None => ([], Some (rethrown config NoResponseBody))
            | Some b =>
                let (chunks, error) :=
                  read_loop JSON_parse (Http.reads b) (Http.failure b) "" in
                (chunks, option_map (rethrown config) error)
            end
          else ([], Some (rethrown config (UpstreamError (Http.status response)
                                      (Http.statusText response))))
      end
    else ([], Some (rethrown config Http.AbortError)).
Proof.
  cbv zeta. unfold generateContentStreamOllama, exchange_of.
  pose proof (snd_fetch (generate_url config)
                (request_init config request (convertToOllamaPrompt request) true)
                TIMEOUT_MS) as Hf.
  destruct (fetch network (generate_url config) _ TIMEOUT_MS) as [evs r].
  cbn [snd] in Hf. subst r.
  set (x := network (generate_url config) _).
  destruct (Http.settle_ms x <? TIMEOUT_MS)%N.
  2:{ now destruct (failed_run_spec evs [] Http.AbortError) as [-> ->]. }
  destruct (Http.outcome x) as [e|response].
  { now destruct (failed_run_spec evs [] e) as [-> ->]. }
  destruct (Http.ok response); cbn [negb].
  2:{ now destruct (failed_run_spec evs []
                      (UpstreamError (Http.status response) (Http.statusText response)))
        as [-> ->]. }
  destruct (Http.stream_body response) as [b|].
  2:{ now destruct (failed_run_spec evs [] NoResponseBody) as [-> ->]. }
  destruct (read_loop JSON_parse (Http.reads b) (Http.failure b) "") as [chunks [e|]].
  - now destruct (failed_run_spec (evs ++ [ReleaseLock])%list chunks e) as [-> ->].
  - reflexivity.
Qed.

Lemma or_else_string (s : string) : or_else (Some (JString s)) (JString "") = JString s.
Proof. now destruct s. Qed.

Lemma or_else_number (n : Z) : or_else (Some (JNumber n)) (JNumber 0) = JNumber n.
Proof.
  unfold or_else, truthy. destruct (Z.eqb_spec n 0) as [->|]; reflexivity.
Qed.

Lemma plus_safe (x y : Z) :
  is_safe_integer x && is_safe_integer y && is_safe_integer (x + y) = true ->
  plus JS_add (JNumber x) (JNumber y) = inr (JNumber (x + y)).
Proof. intros H. unfold plus. now rewrite H. Qed.

(** The buffered converter on a provider response. *)
Lemma convertFromOllamaResponse_typed (data : json) :
  Spec.is_ollama_response data = true ->
  Spec.safe_counters data = true ->
  convertFromOllamaResponse JS_add data
  = inr (Spec.single_candidate
           (JString (Spec.response_field data))
           (Some (if Spec.done_is_true data then STOP else MAX_TOKENS))
           (Some {| promptTokenCount := JNumber (Spec.count_field "prompt_eval_count" data);
                    candidatesTokenCount := JNumber (Spec.count_field "eval_count" data);
                    totalTokenCount :=
                      JNumber (Spec.count_field "prompt_eval_count" data
                               + Spec.count_field "eval_count" data) |})).
Proof.
  destruct data as [| | | | |members]; try discriminate.
  unfold Spec.is_ollama_response, Spec.typed_members, Spec.safe_counters,
    convertFromOllamaResponse, Spec.response_field, Spec.done_is_true,
    Spec.count_field, get, and_then, Spec.single_candidate.
  destruct (member "response" members) as [[| | |s| |]|]; try discriminate;
    destruct (member "done" members) as [[|b| | | |]|]; try discriminate;
    destruct (member "prompt_eval_count" members) as [[| |p| | |]|]; try discriminate;
    destruct (member "eval_count" members) as [[| |c| | |]|]; try discriminate;
    intros _ Hsafe; rewrite ?or_else_string, ?or_else_number;
    change (or_else None (JNumber 0)) with (JNumber 0);
    rewrite (plus_safe _ _ Hsafe); reflexivity.
Qed.

(** C1.  When the provider answers in time with a 2xx status and a body
    that parses to a provider response object whose counters are token
    counts (safe integers with a safe sum), [generateContent] returns
    one candidate of role "model" whose single text part is the
    [response] member (the empty string when absent), with finish reason
    STOP when [done] is true and MAX_TOKENS otherwise, the two counters
    copied (0 when absent) and their sum as the total. *)
Theorem generateContent_maps_ollama_response
    (request : GenAI.GenerateContentParameters) (response : Http.Response) (data : json) :
  provider config = ollama ->
  (Http.settle_ms (exchange_of network config request false) < TIMEOUT_MS)%N ->
  Http.outcome (exchange_of network config request false) = Http.Fulfilled response ->
  Http.ok response = true ->
  Response_json JSON_parse response = inr data ->
  Spec.is_ollama_response data = true ->
  Spec.safe_counters data = true ->
  snd (generateContent JSON_parse JS_add network config request)
  = inr (Spec.single_candidate
           (JString (Spec.response_field data))
           (Some (if Spec.done_is_true data then STOP else MAX_TOKENS))
           (Some {| promptTokenCount := JNumber (Spec.count_field "prompt_eval_count" data);
                    candidatesTokenCount := JNumber (Spec.count_field "eval_count" data);
                    totalTokenCount :=
                      JNumber (Spec.count_field "prompt_eval_count" data
                               + Spec.count_field "eval_count" data) |})).
Proof.
  intros Hprov Hms Hout Hok Hjson Htyped Hsafe.
  unfold generateContent. rewrite Hprov. cbn [is_ollama].
  rewrite generateContentOllama_settles. cbv zeta.
  apply N.ltb_lt in Hms. rewrite Hms, Hout, Hok, Hjson.
  now rewrite (convertFromOllamaResponse_typed data Htyped Hsafe).
Qed.

Lemma convertFromOllamaResponse_shape (data : json) (r : GenerateContentResponse) :
  convertFromOllamaResponse JS_add data = inr r -> Spec.well_shaped r.
Proof.
  unfold convertFromOllamaResponse.
  destruct data; cbn [get and_then]; try discriminate;
    (destruct (plus JS_add _ _) as [e|total]; cbn [and_then]; [discriminate|]);
    intros [= <-]; eexists _, _; repeat split; reflexivity.
Qed.

Lemma convertFromOllamaStreamResponse_shape (data : json) (r : GenerateContentResponse) :
  convertFromOllamaStreamResponse data = inr r -> Spec.well_shaped r.
Proof.
  destruct data; simpl; try discriminate; intros [= <-];
    eexists _, _; repeat split; reflexivity.
Qed.

Lemma process_line_shape (line : string) (chunk : GenerateContentResponse) :
  In chunk (process_line JSON_parse line) -> Spec.well_shaped chunk.
Proof.
  unfold process_line. destruct (nonempty (trim line)); [|intros []].
  destruct (JSON_parse line) as [e|data]; cbn [and_then]; [intros []|].
  destruct (get data "response") as [e|response]; cbn [and_then]; [intros []|].
  destruct (truthy response); [|intros []].
  destruct (convertFromOllamaStreamResponse data) as [e|r] eqn:E; cbn [and_then];
    [intros []|].
  intros [<-|[]]. eapply convertFromOllamaStreamResponse_shape, E.
Qed.

Lemma read_loop_shape (reads : list string) (failure : option Error) (buffer : string)
    (chunk : GenerateContentResponse) :
  In chunk (fst (read_loop JSON_parse reads failure buffer)) -> Spec.well_shaped chunk.
Proof.
  revert buffer. induction reads as [|value reads IH]; intros buffer; simpl; [intros []|].
  destruct (pop (split_LF (buffer ++ value))) as [last lines].
  specialize (IH (match last with Some l => l | None => "" end)).
  destruct (read_loop JSON_parse reads failure _) as [later error].
  cbn [fst] in *. rewrite in_app_iff, in_flat_map.
  intros [(line & _ & Hin)|Hin]; [eapply process_line_shape, Hin | auto].
Qed.

(** C10.  Every response [generateContent] returns and every chunk the
    stream yields has exactly one candidate, of role "model" and index 0,
    whose parts are exactly one text part, and carries an empty list of
    safety ratings. *)
Theorem responses_well_shaped (request : GenAI.GenerateContentParameters) :
  (forall r,
      snd (generateContent JSON_parse JS_add network config request) = inr r ->
      Spec.well_shaped r)
  /\ (forall g chunk,
         snd (generateContentStream JSON_parse network config request) = inr g ->
         In chunk (yielded (drain g)) ->
         Spec.well_shaped chunk).
Proof.
  split.
  - intros r. unfold generateContent.
    destruct (is_ollama (provider config)); [|discriminate].
    rewrite generateContentOllama_settles. cbv zeta.
    destruct (_ <? _)%N; [|discriminate].
    destruct (Http.outcome _) as [e|response]; [discriminate|].
    destruct (Http.ok response); [|discriminate].
    destruct (Response_json JSON_parse response) as [e|data]; [discriminate|].
    destruct (convertFromOllamaResponse JS_add data) as [e|r'] eqn:E; [discriminate|].
    intros [= <-]. eapply convertFromOllamaResponse_shape, E.
  - intros g chunk. unfold generateContentStream.
    destruct (is_ollama (provider config)); [|discriminate].
    intros [= <-]. cbn [drain].
    pose proof (generateContentStreamOllama_run request) as Hrun. cbv zeta in Hrun.
    destruct (_ <? _)%N; [|injection Hrun as -> _; intros []].
    destruct (Http.outcome _) as [e|response]; [injection Hrun as -> _; intros []|].
    destruct (Http.ok response); [|injection Hrun as -> _; intros []].
    destruct (Http.stream_body response) as [b|]; [|injection Hrun as -> _; intros []].
    pose proof (read_loop_shape (Http.reads b) (Http.failure b) "" chunk) as Hshape.
    destruct (read_loop JSON_parse (Http.reads b) (Http.failure b) "") as [chunks error].
    injection Hrun as -> _. exact Hshape.
Qed.

(** C6.  With a provider other than ollama both calls throw at once the
    error that names the configured provider, having performed no
    effect, so no network call. *)
Theorem other_providers_unsupported (request : GenAI.GenerateContentParameters) :
  provider config <> ollama ->
  generateContent JSON_parse JS_add network config request
  = ([], inl (new_Error ("Unsupported local model provider: "
                         ++ provider_name (provider config))))
  /\ generateContentStream JSON_parse network config request
     = ([], inl (new_Error ("Unsupported local model provider: "
                            ++ provider_name (provider config)))).
Proof.
  intros Hp. unfold generateContent, generateContentStream, UnsupportedProvider, throw.
  destruct (provider config); [contradiction| |]; split; reflexivity.
Qed.

Lemma Timeout_mentions :
  Spec.mentions (message (Timeout config)) (endpoint config)
  /\ Spec.mentions (message (Timeout config)) (provider_name (provider config)).
Proof.
  unfold Timeout, generate_url, new_Error. cbn [message]. split.
  - exists "Local model endpoint timeout after 60s: ". eexists.
    rewrite !str_app_assoc. reflexivity.
  - exists ("Local model endpoint timeout after 60s: " ++ endpoint config
            ++ "/api/generate is not responding. Make sure your local model server (").
    eexists. rewrite !str_app_assoc. reflexivity.
Qed.

Lemma stream_of_ollama (request : GenAI.GenerateContentParameters) :
  provider config = ollama ->
  generateContentStream JSON_parse network config request
  = ([], inr (mkGenerator (generateContentStreamOllama JSON_parse network config request))).
Proof. intros Hp. unfold generateContentStream. now rewrite Hp. Qed.

(** A failing read ends the loop with its error and takes no chunk
    away. *)
Lemma read_loop_failure (reads : list string) (failure : option Error) (buffer : string) :
  read_loop JSON_parse reads failure buffer
  = (fst (read_loop JSON_parse reads None buffer), failure).
Proof.
  revert buffer. induction reads as [|value reads IH]; intros buffer; [reflexivity|].
  cbn [read_loop]. destruct (pop (split_LF (buffer ++ value))) as [last lines].
  rewrite (IH (match last with Some l => l | None => "" end)).
  now destruct (read_loop JSON_parse reads None _).
Qed.

(** [fetch] looks at the time the exchange settles and at its outcome,
    at nothing else. *)
Lemma fetch_agrees (network' : string -> Http.RequestInit -> Http.Exchange)
    (url : string) (init : Http.RequestInit) (deadline : N) :
  Http.settle_ms (network' url init) = Http.settle_ms (network url init) ->
  Http.outcome (network' url init) = Http.outcome (network url init) ->
  fetch network' url init deadline = fetch network url init deadline.
Proof. intros Hms Hout. unfold fetch. cbv zeta. now rewrite Hms, Hout. Qed.

Lemma calls_agree (network' : string -> Http.RequestInit -> Http.Exchange)
    (request : GenAI.GenerateContentParameters) :
  (forall url init,
      Http.settle_ms (network' url init) = Http.settle_ms (network url init)
      /\ Http.outcome (network' url init) = Http.outcome (network url init)) ->
  generateContent JSON_parse JS_add network' config request
  = generateContent JSON_parse JS_add network config request
  /\ generateContentStream JSON_parse network' config request
     = generateContentStream JSON_parse network config request.
Proof.
  intros H.
  assert (F : forall url init deadline,
             fetch network' url init deadline = fetch network url init deadline).
  { intros url init deadline. apply fetch_agrees; apply H. }
  unfold generateContent, generateContentStream, generateContentOllama,
    generateContentStreamOllama.
  now rewrite !F.
Qed.

(** C5, as the code has it.  Both calls set an abort timer of 120
    seconds that runs while the request waits for the response and is
    cleared when [fetch] settles: the calls look at the time [fetch]
    takes and at nothing else of the timing, so the body may take any
    time.  When [fetch] has not settled by then, the buffered call
    rejects, and the iteration of the stream ends before any chunk, with
    the Timeout error, whose message names the endpoint and the
    provider.  On a status outside 200..299 the error is the
    RequestFailed wrapper around the upstream message, which carries
    the status code and the reason text; on a rejected fetch that is not
    an abort, and on a body that cannot be read, it is the RequestFailed
    wrapper around the message of the underlying error.  The call of
    [generateContentStream] itself returns its generator; a failing
    read ends the iteration after the chunks of the lines completed
    before it. *)
Theorem failures_of_both_calls (request : GenAI.GenerateContentParameters) :
  provider config = ollama ->
  let buffered := exchange_of network config request false in
  let streamed := exchange_of network config request true in
  let ends_with (e : Error) :=
    exists g,
      generateContentStream JSON_parse network config request = ([], inr g)
      /\ yielded (drain g) = [] /\ thrown (drain g) = Some e in
  TIMEOUT_MS = (120 * 1000)%N
  /\ ((TIMEOUT_MS <= Http.settle_ms buffered)%N ->
      snd (generateContent JSON_parse JS_add network config request) = inl (Timeout config))
  /\ ((TIMEOUT_MS <= Http.settle_ms streamed)%N -> ends_with (Timeout config))
  /\ Spec.mentions (message (Timeout config)) (endpoint config)
  /\ Spec.mentions (message (Timeout config)) (provider_name (provider config))
  /\ (forall response,
         (Http.settle_ms buffered < TIMEOUT_MS)%N ->
         Http.outcome buffered = Http.Fulfilled response ->
         Http.ok response = false ->
         snd (generateContent JSON_parse JS_add network config request)
         = inl (new_Error ("Local model request failed: Ollama API error: "
                           ++ string_of_N (Http.status response) ++ " "
                           ++ Http.statusText response)))
  /\ (forall response,
         (Http.settle_ms streamed < TIMEOUT_MS)%N ->
         Http.outcome streamed = Http.Fulfilled response ->
         Http.ok response = false ->
         ends_with (new_Error ("Local model request failed: Ollama API error: "
                               ++ string_of_N (Http.status response) ++ " "
                               ++ Http.statusText response)))
  /\ (forall e,
         (Http.settle_ms buffered < TIMEOUT_MS)%N ->
         Http.outcome buffered = Http.Rejected e ->
         name e <> "AbortError" ->
         snd (generateContent JSON_parse JS_add network config request)
         = inl (new_Error ("Local model request failed: " ++ message_or_self e)))
  /\ (forall e,
         (Http.settle_ms streamed < TIMEOUT_MS)%N ->
         Http.outcome streamed = Http.Rejected e ->
         name e <> "AbortError" ->
         ends_with (new_Error ("Local model request failed: " ++ message_or_self e)))
  /\ (forall response e,
         (Http.settle_ms buffered < TIMEOUT_MS)%N ->
         Http.outcome buffered = Http.Fulfilled response ->
         Http.ok response = true ->
         Response_json JSON_parse response = inl e ->
         name e <> "AbortError" ->
         snd (generateContent JSON_parse JS_add network config request)
         = inl (new_Error ("Local model request failed: " ++ message_or_self e)))
  /\ (forall response reads e,
         (Http.settle_ms streamed < TIMEOUT_MS)%N ->
         Http.outcome streamed = Http.Fulfilled response ->
         Http.ok response = true ->
         Http.stream_body response = Some (Http.mkStream reads (Some e)) ->
         name e <> "AbortError" ->
         exists g,
           generateContentStream JSON_parse network config request = ([], inr g)
           /\ yielded (drain g) = fst (read_loop JSON_parse reads None "")
           /\ thrown (drain g)
              = Some (new_Error ("Local model request failed: " ++ message_or_self e)))
  /\ (forall response data r,
         (Http.settle_ms buffered < TIMEOUT_MS)%N ->
         Http.outcome buffered = Http.Fulfilled response ->
         Http.ok response = true ->
         Response_json JSON_parse response = inr data ->
         convertFromOllamaResponse JS_add data = inr r ->
         snd (generateContent JSON_parse JS_add network config request) = inr r)
  /\ (forall response reads,
         (Http.settle_ms streamed < TIMEOUT_MS)%N ->
         Http.outcome streamed = Http.Fulfilled response ->
         Http.ok response = true ->
         Http.stream_body response = Some (Http.mkStream reads None) ->
         exists g,
           generateContentStream JSON_parse network config request = ([], inr g)
           /\ thrown (drain g) = None)
  /\ (forall network',
         (forall url init,
             Http.settle_ms (network' url init) = Http.settle_ms (network url init)
             /\ Http.outcome (network' url init) = Http.outcome (network url init)) ->
         generateContent JSON_parse JS_add network' config request
         = generateContent JSON_parse JS_add network config request
         /\ generateContentStream JSON_parse network' config request
            = generateContentStream JSON_parse network config request).
Proof.
  intros Hp buffered streamed ends_with.
  assert (Hb : snd (generateContent JSON_parse JS_add network config request)
               = snd (generateContentOllama JSON_parse JS_add network config request)).
  { unfold generateContent. now rewrite Hp. }
  assert (Hg : generateContentStream JSON_parse network config request
               = ([], inr (mkGenerator
                             (generateContentStreamOllama JSON_parse network config request)))).
  { apply stream_of_ollama, Hp. }
  assert (Hs : forall e,
             (yielded (generateContentStreamOllama JSON_parse network config request),
              thrown (generateContentStreamOllama JSON_parse network config request))
             = ([], Some e) -> ends_with e).
  { intros e [= Hy Ht]. eexists. split; [exact Hg|]. now split. }
  pose proof (generateContentStreamOllama_run request) as Hrun. cbv zeta in Hrun.
  fold streamed in Hrun.
  pose proof (generateContentOllama_settles request) as Hset. cbv zeta in Hset.
  fold buffered in Hset. rewrite <- Hb in Hset.
  destruct Timeout_mentions as [Hm1 Hm2].
  repeat match goal with |- _ /\ _ => split end; try assumption.
  - reflexivity.
  - intros Hms. apply N.ltb_ge in Hms. now rewrite Hset, Hms.
  - intros Hms. apply N.ltb_ge in Hms. rewrite Hms in Hrun. now apply Hs.
  - intros response Hms Hout Hok. apply N.ltb_lt in Hms. now rewrite Hset, Hms, Hout, Hok.
  - intros response Hms Hout Hok. apply N.ltb_lt in Hms.
    rewrite Hms, Hout, Hok in Hrun. now apply Hs.
  - intros e Hms Hout Hname. apply N.ltb_lt in Hms. rewrite Hset, Hms, Hout.
    unfold rethrown, catch_block. now apply String.eqb_neq in Hname as ->.
  - intros e Hms Hout Hname. apply N.ltb_lt in Hms. rewrite Hms, Hout in Hrun.
    apply Hs. rewrite Hrun. unfold rethrown, catch_block.
    now apply String.eqb_neq in Hname as ->.
  - intros response e Hms Hout Hok Hjson Hname. apply N.ltb_lt in Hms.
    rewrite Hset, Hms, Hout, Hok, Hjson.
    unfold rethrown, catch_block. now apply String.eqb_neq in Hname as ->.
  - intros response reads e Hms Hout Hok Hbody Hname. apply N.ltb_lt in Hms.
    rewrite Hms, Hout, Hok, Hbody in Hrun. cbn [Http.reads Http.failure] in Hrun.
    rewrite read_loop_failure in Hrun. injection Hrun as Hy Ht.
    eexists. split; [exact Hg|]. cbn [drain]. split; [exact Hy|].
    rewrite Ht. cbn [option_map]. unfold rethrown, catch_block.
    now apply String.eqb_neq in Hname as ->.
  - intros response data r Hms Hout Hok Hjson Hconv. apply N.ltb_lt in Hms.
    now rewrite Hset, Hms, Hout, Hok, Hjson, Hconv.
  - intros response reads Hms Hout Hok Hbody. apply N.ltb_lt in Hms.
    rewrite Hms, Hout, Hok, Hbody in Hrun. cbn [Http.reads Http.failure] in Hrun.
    rewrite read_loop_failure in Hrun. injection Hrun as _ Ht.
    eexists. split; [exact Hg|]. exact Ht.
  - intros network' H. now apply calls_agree.
Qed.

(** Both branches of the [catch] block, by the name of the error. *)
Ltac by_error_name e := now destruct (String.eqb (name e) "AbortError").

(** X3.  Each call of an ollama adapter makes exactly one network call:
    a POST to the endpoint's [/api/generate] with the JSON content
    type, whose body carries the configured model, as its prompt the
    prompt built from the request, and the [stream] flag of the method;
    without generation options in the request the options sent are
    temperature 0.7, top_p 0.9 and top_k 40. *)
Theorem one_post_per_call (request : GenAI.GenerateContentParameters) :
  provider config = ollama ->
  network_calls (fst (generateContent JSON_parse JS_add network config request))
  = [Fetch (endpoint config ++ "/api/generate")
       (request_init config request (convertToOllamaPrompt request) false)]
  /\ network_calls (effects (generateContentStreamOllama JSON_parse network config request))
     = [Fetch (endpoint config ++ "/api/generate")
          (request_init config request (convertToOllamaPrompt request) true)]
  /\ (forall stream,
         Http.method (request_init config request (convertToOllamaPrompt request) stream)
         = "POST"
         /\ Http.model (Http.body (request_init config request
                                      (convertToOllamaPrompt request) stream))
            = model config
         /\ Http.stream (Http.body (request_init config request
                                       (convertToOllamaPrompt request) stream))
            = stream
         /\ Http.prompt (Http.body (request_init config request
                                       (convertToOllamaPrompt request) stream))
            = convertToOllamaPrompt request
         /\ Http.headers (request_init config request (convertToOllamaPrompt request) stream)
            = [("Content-Type", "application/json")]
         /\ (GenAI.config request = None ->
             Http.options (Http.body (request_init config request
                                        (convertToOllamaPrompt request) stream))
             = {| Http.temperature := 7 # 10; Http.top_p := 9 # 10; Http.top_k := 40 # 1 |})).
Proof.
  intros Hp. split; [|split].
  - unfold generateContent. rewrite Hp. cbn [is_ollama].
    unfold generateContentOllama, fetch, on_failure, catch_block, rethrown, generate_url.
    cbn [bind perform try_catch].
    destruct (Http.settle_ms _ <? TIMEOUT_MS)%N; cbn.
    2:{ reflexivity. }
    destruct (Http.outcome _) as [e|response]; cbn.
    { by_error_name e. }
    destruct (Http.ok response); cbn; [|reflexivity].
    destruct (Response_json JSON_parse response) as [e|data]; cbn.
    { by_error_name e. }
    destruct (convertFromOllamaResponse JS_add data) as [e|r]; cbn; [|reflexivity].
    by_error_name e.
  - unfold generateContentStreamOllama, fetch, failed_run, catch_block, rethrown,
      generate_url.
    cbn [bind perform].
    destruct (Http.settle_ms _ <? TIMEOUT_MS)%N; cbn.
    2:{ reflexivity. }
    destruct (Http.outcome _) as [e|response]; cbn.
    { by_error_name e. }
    destruct (Http.ok response); cbn; [|reflexivity].
    destruct (Http.stream_body response) as [b|]; cbn; [|reflexivity].
    destruct (read_loop JSON_parse (Http.reads b) (Http.failure b) "") as [chunks [e|]];
      cbn; [|reflexivity].
    by_error_name e.
  - intros stream. unfold request_init. cbn. repeat split. now intros ->.
Qed.

(** X4.  Once the stream has its reader, the lock is released on every
    way out of the loop: when the body ends and when a read fails. *)
Theorem reader_is_released (request : GenAI.GenerateContentParameters)
    (response : Http.Response) (b : Http.BodyStream) :
  (Http.settle_ms (exchange_of network config request true) < TIMEOUT_MS)%N ->
  Http.outcome (exchange_of network config request true) = Http.Fulfilled response ->
  Http.ok response = true ->
  Http.stream_body response = Some b ->
  In ReleaseLock (effects (generateContentStreamOllama JSON_parse network config request)).
Proof.
  intros Hms Hout Hok Hbody. apply N.ltb_lt in Hms.
  unfold generateContentStreamOllama, fetch, exchange_of in *. cbn [bind perform].
  rewrite Hms, Hout. cbn. rewrite Hok, Hbody. cbn.
  destruct (read_loop JSON_parse (Http.reads b) (Http.failure b) "") as [chunks [e|]];
    cbn; auto.
Qed.

End Calls.

(** C8.  [embedContent] throws, whatever the request, the error that
    tells the caller to use Google embedding models; it performs no
    effect, so no network call. *)
Theorem embedContent_not_supported (request : GenAI.EmbedContentParameters) :
  embedContent request
  = ([], inl (new_Error
                "Embedding not supported with local models. Use Google embedding models."))
  /\ network_calls (fst (embedContent request)) = [].
Proof. split; reflexivity. Qed.

(* ===================================================================== *)
(** ** Line splitting across reads                                       *)
(* ===================================================================== *)

Section Lines.

Lemma pop_snoc {A : Type} (xs : list A) (x : A) : pop (xs ++ [x])%list = (Some x, xs).
Proof.
  induction xs as [|y xs IH]; [reflexivity|].
  change ((y :: xs) ++ [x])%list with (y :: (xs ++ [x]))%list.
  cbn [pop]. rewrite IH. destruct xs; reflexivity.
Qed.

Lemma pop_app {A : Type} (xs ys : list A) (y : A) :
  pop (xs ++ y :: ys)%list
  = (fst (pop (y :: ys)), (xs ++ snd (pop (y :: ys)))%list).
Proof.
  induction xs as [|x xs IH]; [cbn [app]; now destruct (pop (y :: ys))|].
  change ((x :: xs) ++ y :: ys)%list with (x :: (xs ++ y :: ys))%list.
  cbn [pop]. rewrite IH. destruct xs; reflexivity.
Qed.

Lemma split_LF_inhabited (s : string) : exists seg segs, split_LF s = seg :: segs.
Proof.
  induction s as [|c s (seg & segs & IH)]; simpl; [now eexists _, _|].
  destruct (is_LF c); [now eexists _, _|]. rewrite IH. now eexists _, _.
Qed.

(** A text without line feed is its own single segment. *)
Lemma split_LF_no_LF (s : string) : Spec.no_LF s = true -> split_LF s = [s].
Proof.
  induction s as [|c s IH]; simpl; [reflexivity|].
  destruct (is_LF c); simpl; [discriminate|]. intros H. now rewrite IH.
Qed.

(** A line and its line feed come off the front. *)
Lemma split_LF_line (l rest : string) :
  Spec.no_LF l = true -> split_LF (l ++ String LF rest) = l :: split_LF rest.
Proof.
  induction l as [|c l IH]; simpl; [reflexivity|].
  destruct (is_LF c); simpl; [discriminate|]. intros H. now rewrite IH.
Qed.

(** Splitting a text that goes on: the segments before the last stay,
    and the last one, which holds no line feed, is continued. *)
Lemma split_LF_app (a b : string) :
  exists init l,
    split_LF a = (init ++ [l])%list
    /\ Spec.no_LF l = true
    /\ split_LF (a ++ b) = (init ++ split_LF (l ++ b))%list.
Proof.
  induction a as [|c a (init & l & Ha & Hl & Hab)].
  - exists [], "". repeat split.
  - simpl. destruct (is_LF c) eqn:Ec.
    + exists ("" :: init)%list, l. rewrite Ha, Hab. repeat split. exact Hl.
    + rewrite Ha, Hab. destruct init as [|i init]; simpl.
      * exists [], (String c l). simpl. rewrite Ec, Hl. repeat split.
      * exists (String c i :: init)%list, l. repeat split. exact Hl.
Qed.

Lemma concat_nosep_cons (x : string) (xs : list string) :
  String.concat "" (x :: xs) = x ++ String.concat "" xs.
Proof. apply (concat_nosep_app [x] xs). Qed.

(** The segments of complete lines followed by an unfinished fragment. *)
Lemma split_LF_complete (lines : list string) (tail : string) :
  Forall (fun l => Spec.no_LF l = true) lines ->
  Spec.no_LF tail = true ->
  split_LF (Spec.complete_lines lines ++ tail) = (lines ++ [tail])%list.
Proof.
  intros Hlines Htail. induction Hlines as [|l lines Hl _ IH].
  - now apply split_LF_no_LF.
  - unfold Spec.complete_lines in *. cbn [map].
    rewrite concat_nosep_cons, !str_app_assoc. cbn [append].
    rewrite split_LF_line by exact Hl. now rewrite IH.
Qed.

Variable JSON_parse : string -> Error + json.

(** The loop over the reads yields what the lines of the whole text
    yield, however the text is cut into reads; the segment after the
    last line feed is never processed. *)
Lemma read_loop_whole (reads : list string) (failure : option Error) (buffer : string) :
  Spec.no_LF buffer = true ->
  read_loop JSON_parse reads failure buffer
  = (flat_map (process_line JSON_parse)
       (snd (pop (split_LF (buffer ++ String.concat "" reads)))),
     failure).
Proof.
  revert buffer. induction reads as [|value reads IH]; intros buffer Hb.
  - cbn [read_loop String.concat]. rewrite str_app_nil_r, split_LF_no_LF by exact Hb.
    reflexivity.
  - cbn [read_loop]. rewrite concat_nosep_cons, <- str_app_assoc.
    destruct (split_LF_app (buffer ++ value) (String.concat "" reads))
      as (init & l & Hsplit & Hl & Hwhole).
    rewrite Hsplit, pop_snoc, Hwhole, (IH l Hl).
    destruct (split_LF_inhabited (l ++ String.concat "" reads)) as (seg & segs & ->).
    rewrite pop_app. cbn [snd]. now rewrite flat_map_app.
Qed.

Lemma read_loop_complete (reads : list string) (lines : list string) (tail : string) :
  String.concat "" reads = Spec.complete_lines lines ++ tail ->
  Forall (fun l => Spec.no_LF l = true) lines ->
  Spec.no_LF tail = true ->
  read_loop JSON_parse reads None "" = (flat_map (process_line JSON_parse) lines, None).
Proof.
  intros Htext Hlines Htail.
  rewrite read_loop_whole by reflexivity. cbn [append].
  now rewrite Htext, split_LF_complete, pop_snoc.
Qed.

(** On a non-blank line that parses to a provider response, the loop
    body yields the chunk the specification describes. *)
Lemma process_line_typed (line : string) :
  nonempty (trim line) = true ->
  (forall data, JSON_parse line = inr data -> Spec.is_ollama_line data = true) ->
  process_line JSON_parse line = Spec.chunk_of_line JSON_parse line.
Proof.
  intros Hblank Htyped. unfold process_line, Spec.chunk_of_line. rewrite Hblank.
  destruct (JSON_parse line) as [e|data]; [reflexivity|].
  specialize (Htyped data eq_refl).
  destruct data as [| | | | |members]; try reflexivity.
  revert Htyped.
  unfold Spec.is_ollama_line, Spec.typed_members, convertFromOllamaStreamResponse,
    Spec.response_field, Spec.done_is_true, get, and_then, Spec.single_candidate.
  destruct (member "response" members) as [[| | |s| |]|]; try discriminate;
    try reflexivity.
  destruct s as [|c s]; [reflexivity|]. cbn [truthy nonempty or_else].
  destruct (member "done" members) as [[|[|]| | | |]|]; try discriminate; reflexivity.
Qed.

Lemma process_line_malformed (line : string) (e : Error) :
  JSON_parse line = inl e -> process_line JSON_parse line = [].
Proof.
  intros H. unfold process_line. rewrite H. now destruct (nonempty (trim line)).
Qed.

(** X1.  What the loop yields depends on the text of the body only, not
    on how the transport cuts it into reads. *)
Theorem reads_may_be_cut_anywhere (reads reads' : list string) (failure : option Error) :
  String.concat "" reads = String.concat "" reads' ->
  read_loop JSON_parse reads failure "" = read_loop JSON_parse reads' failure "".
Proof.
  intros H. rewrite !read_loop_whole by reflexivity. now rewrite H.
Qed.

(** X2.  The text after the last line feed of the body is never parsed:
    a last line that the provider does not end with a line feed yields
    no chunk. *)
Theorem unterminated_line_is_dropped (reads lines : list string) (tail : string) :
  String.concat "" reads = Spec.complete_lines lines ++ tail ->
  Forall (fun l => Spec.no_LF l = true) lines ->
  Spec.no_LF tail = true ->
  read_loop JSON_parse reads None ""
  = read_loop JSON_parse [Spec.complete_lines lines] None "".
Proof.
  intros Htext Hlines Htail.
  rewrite (read_loop_complete reads lines tail) by assumption.
  rewrite (read_loop_complete [Spec.complete_lines lines] lines "");
    [reflexivity|now rewrite str_app_nil_r|assumption|reflexivity].
Qed.

End Lines.

(* ===================================================================== *)
(** ** The stream                                                        *)
(* ===================================================================== *)

Section Streaming.

Variable JSON_parse : string -> Error + json.
Variable JS_add : json -> json -> Error + json.
Variable network : string -> Http.RequestInit -> Http.Exchange.
Variable config : LocalModelConfig.

(** A stream that is answered in time with a 2xx status and whose body
    ends cleanly with complete lines: iterating it yields what the loop
    body yields for each line, in order, and ends normally. *)
Lemma stream_of_complete_lines (request : GenAI.GenerateContentParameters)
    (response : Http.Response) (reads lines : list string) :
  provider config = ollama ->
  (Http.settle_ms (exchange_of network config request true) < TIMEOUT_MS)%N ->
  Http.outcome (exchange_of network config request true) = Http.Fulfilled response ->
  Http.ok response = true ->
  Http.stream_body response = Some (Http.mkStream reads None) ->
  String.concat "" reads = Spec.complete_lines lines ->
  Forall (fun l => Spec.no_LF l = true) lines ->
  exists g,
    generateContentStream JSON_parse network config request = ([], inr g)
    /\ yielded (drain g) = flat_map (process_line JSON_parse) lines
    /\ thrown (drain g) = None.
Proof.
  intros Hp Hms Hout Hok Hbody Htext Hlines.
  eexists. split; [apply stream_of_ollama, Hp|]. cbn [drain].
  pose proof (generateContentStreamOllama_run JSON_parse network config request) as Hrun.
  cbv zeta in Hrun. apply N.ltb_lt in Hms. rewrite Hms, Hout, Hok, Hbody in Hrun.
  cbn [Http.reads Http.failure] in Hrun.
  rewrite (read_loop_complete JSON_parse reads lines "") in Hrun;
    [|now rewrite str_app_nil_r|assumption|reflexivity].
  now injection Hrun as -> ->.
Qed.

(** C2.  For a stream body made of complete non-blank lines, each of
    which, when it parses to an object, is a provider response, and
    however the body is cut into reads: the stream yields, in the order
    of the lines, one chunk for each line that parses and has a
    non-empty [response] member; the chunk has one candidate of role
    "model" whose text is that member, finish reason STOP when [done]
    is true and none otherwise, and no usage counters.  The iteration
    then ends normally. *)
Theorem stream_yields_chunk_per_line (request : GenAI.GenerateContentParameters)
    (response : Http.Response) (reads lines : list string) :
  provider config = ollama ->
  (Http.settle_ms (exchange_of network config request true) < TIMEOUT_MS)%N ->
  Http.outcome (exchange_of network config request true) = Http.Fulfilled response ->
  Http.ok response = true ->
  Http.stream_body response = Some (Http.mkStream reads None) ->
  String.concat "" reads = Spec.complete_lines lines ->
  Forall (fun l => Spec.no_LF l = true /\ nonempty (trim l) = true) lines ->
  (forall l data, In l lines -> JSON_parse l = inr data -> Spec.is_ollama_line data = true) ->
  exists g,
    generateContentStream JSON_parse network config request = ([], inr g)
    /\ yielded (drain g) = flat_map (Spec.chunk_of_line JSON_parse) lines
    /\ thrown (drain g) = None.
Proof.
  intros Hp Hms Hout Hok Hbody Htext Hlines Htyped.
  destruct (stream_of_complete_lines request response reads lines)
    as (g & Hg & Hy & Ht); try assumption.
  { eapply Forall_impl; [|exact Hlines]. now intros l [H _]. }
  exists g. repeat split; try assumption. rewrite Hy.
  clear - Hlines Htyped. induction Hlines as [|l lines [_ Hl] _ IH]; [reflexivity|].
  cbn [flat_map]. rewrite IH, process_line_typed; [reflexivity| | |].
  - exact Hl.
  - intros data. apply Htyped. now left.
  - intros l' data Hin. apply Htyped. now right.
Qed.

(** C7.  A complete non-blank line that [JSON.parse] rejects is skipped:
    the stream yields what the lines before it yield, then what the
    lines after it yield, nothing for the line itself, and the iteration
    ends normally. *)
Theorem malformed_line_is_skipped (request : GenAI.GenerateContentParameters)
    (response : Http.Response) (reads before after : list string)
    (bad : string) (e : Error) :
  provider config = ollama ->
  (Http.settle_ms (exchange_of network config request true) < TIMEOUT_MS)%N ->
  Http.outcome (exchange_of network config request true) = Http.Fulfilled response ->
  Http.ok response = true ->
  Http.stream_body response = Some (Http.mkStream reads None) ->
  String.concat "" reads = Spec.complete_lines (before ++ bad :: after)%list ->
  Forall (fun l => Spec.no_LF l = true) (before ++ bad :: after)%list ->
  nonempty (trim bad) = true ->
  JSON_parse bad = inl e ->
  exists g,
    generateContentStream JSON_parse network config request = ([], inr g)
    /\ yielded (drain g)
       = (flat_map (process_line JSON_parse) before
          ++ flat_map (process_line JSON_parse) after)%list
    /\ thrown (drain g) = None.
Proof.
  intros Hp Hms Hout Hok Hbody Htext Hlines Hblank Hbad.
  destruct (stream_of_complete_lines request response reads (before ++ bad :: after)%list)
    as (g & Hg & Hy & Ht); try assumption.
  exists g. repeat split; try assumption.
  rewrite Hy, flat_map_app. cbn [flat_map].
  now rewrite (process_line_malformed JSON_parse bad e Hbad).
Qed.

End Streaming.

(* ===================================================================== *)
(** ** The adapter on sample exchanges                                   *)
(* ===================================================================== *)

Section Runs.

(** The buffered example of the specification: text "hi", STOP and the
    counters 3, 2, 5. *)
Lemma generateContent_maps_ollama_response_witness :
  snd (generateContent JsonText.parse Sample.add (Sample.answered 200 "OK" [Sample.hi_body])
      Sample.ollama_at_localhost Sample.ask)
  = inr (Spec.single_candidate (JString "hi") (Some STOP)
           (Some {| promptTokenCount := JNumber 3;
                    candidatesTokenCount := JNumber 2;
                    totalTokenCount := JNumber 5 |})).
Proof.
  apply (generateContent_maps_ollama_response JsonText.parse Sample.add
           (Sample.answered 200 "OK" [Sample.hi_body]) Sample.ollama_at_localhost Sample.ask
           (Http.mkResponse 200 "OK" (Some (Http.mkStream [Sample.hi_body] None)))
           Sample.hi_data);
    reflexivity.
Defined.

(** The streamed example of the specification: two chunks, "a" with no
    finish reason, then "b" with STOP. *)
Lemma stream_yields_chunk_per_line_witness :
  exists g,
    generateContentStream JsonText.parse (Sample.answered 200 "OK" Sample.two_lines_reads)
        Sample.ollama_at_localhost Sample.ask
    = ([], inr g)
    /\ yielded (drain g) = [Sample.chunk "a" None; Sample.chunk "b" (Some STOP)]
    /\ thrown (drain g) = None.
Proof.
  apply (stream_yields_chunk_per_line JsonText.parse
           (Sample.answered 200 "OK" Sample.two_lines_reads)
               Sample.ollama_at_localhost Sample.ask
           (Http.mkResponse 200 "OK" (Some (Http.mkStream Sample.two_lines_reads None)))
           Sample.two_lines_reads [Sample.line_a; Sample.line_b]);
    try reflexivity.
  - repeat constructor.
  - intros l data [<-|[<-|[]]] H; vm_compute in H; injection H as <-; reflexivity.
Defined.

Lemma malformed_line_is_skipped_witness :
  exists g,
    generateContentStream JsonText.parse (Sample.answered 200 "OK" Sample.with_noise_reads)
        Sample.ollama_at_localhost Sample.ask
    = ([], inr g)
    /\ yielded (drain g) = [Sample.chunk "a" None; Sample.chunk "b" (Some STOP)]
    /\ thrown (drain g) = None.
Proof.
  apply (malformed_line_is_skipped JsonText.parse
           (Sample.answered 200 "OK" Sample.with_noise_reads)
               Sample.ollama_at_localhost Sample.ask
           (Http.mkResponse 200 "OK" (Some (Http.mkStream Sample.with_noise_reads None)))
           Sample.with_noise_reads [Sample.line_a] [Sample.line_b] "not json"
           JsonText.SyntaxError);
    try reflexivity.
  repeat constructor.
Defined.

Lemma responses_well_shaped_witness :
  Spec.well_shaped
    (Spec.single_candidate (JString "hi") (Some STOP)
       (Some {| promptTokenCount := JNumber 3;
                candidatesTokenCount := JNumber 2;
                totalTokenCount := JNumber 5 |}))
  /\ Spec.well_shaped (Sample.chunk "b" (Some STOP)).
Proof.
  split.
  - apply (proj1 (responses_well_shaped JsonText.parse Sample.add
                    (Sample.answered 200 "OK" [Sample.hi_body])
                        Sample.ollama_at_localhost Sample.ask)).
    reflexivity.
  - apply (proj2 (responses_well_shaped JsonText.parse Sample.add
                    (Sample.answered 200 "OK" Sample.two_lines_reads)
                        Sample.ollama_at_localhost Sample.ask)
             (mkGenerator (generateContentStreamOllama JsonText.parse
                             (Sample.answered 200 "OK" Sample.two_lines_reads)
                                 Sample.ollama_at_localhost Sample.ask))).
    + reflexivity.
    + right. left. reflexivity.
Defined.

Lemma other_providers_unsupported_witness :
  generateContent JsonText.parse Sample.add (Sample.answered 200 "OK" [Sample.hi_body]) (Sample.local vllm) Sample.ask
  = ([], inl (new_Error "Unsupported local model provider: vllm"))
  /\ generateContentStream JsonText.parse (Sample.answered 200 "OK" [Sample.hi_body])
       (Sample.local custom) Sample.ask
     = ([], inl (new_Error "Unsupported local model provider: custom")).
Proof.
  split.
  - refine (proj1 (other_providers_unsupported JsonText.parse Sample.add
                     (Sample.answered 200 "OK" [Sample.hi_body])
                     (Sample.local vllm) Sample.ask _)).
    discriminate.
  - refine (proj2 (other_providers_unsupported JsonText.parse Sample.add
                     (Sample.answered 200 "OK" [Sample.hi_body])
                     (Sample.local custom) Sample.ask _)).
    discriminate.
Defined.

Lemma failures_of_both_calls_witness :
  snd (generateContent JsonText.parse Sample.add Sample.timed_out
         Sample.ollama_at_localhost Sample.ask)
  = inl (Timeout Sample.ollama_at_localhost)
  /\ (exists g,
         generateContentStream JsonText.parse Sample.timed_out
           Sample.ollama_at_localhost Sample.ask = ([], inr g)
         /\ yielded (drain g) = []
         /\ thrown (drain g) = Some (Timeout Sample.ollama_at_localhost))
  /\ snd (generateContent JsonText.parse Sample.add Sample.failing
            Sample.ollama_at_localhost Sample.ask)
     = inl (new_Error
              "Local model request failed: Ollama API error: 500 Internal Server Error")
  /\ (exists g,
         generateContentStream JsonText.parse Sample.failing
           Sample.ollama_at_localhost Sample.ask = ([], inr g)
         /\ yielded (drain g) = []
         /\ thrown (drain g)
            = Some (new_Error
                      "Local model request failed: Ollama API error: 500 Internal Server Error"))
  /\ snd (generateContent JsonText.parse Sample.add Sample.unreachable
            Sample.ollama_at_localhost Sample.ask)
     = inl (new_Error "Local model request failed: fetch failed")
  /\ (exists g,
         generateContentStream JsonText.parse Sample.unreachable
           Sample.ollama_at_localhost Sample.ask = ([], inr g)
         /\ yielded (drain g) = []
         /\ thrown (drain g) = Some (new_Error "Local model request failed: fetch failed"))
  /\ snd (generateContent JsonText.parse Sample.add Sample.cut_off
            Sample.ollama_at_localhost Sample.ask)
     = inl (new_Error "Local model request failed: terminated")
  /\ (exists g,
         generateContentStream JsonText.parse Sample.cut_off
           Sample.ollama_at_localhost Sample.ask = ([], inr g)
         /\ yielded (drain g) = [Sample.chunk "a" None]
         /\ thrown (drain g) = Some (new_Error "Local model request failed: terminated"))
  /\ snd (generateContent JsonText.parse Sample.add
            (Sample.slow_body_server 10 500000 (Sample.replies 200 "OK" [Sample.hi_body]))
            Sample.ollama_at_localhost Sample.ask)
     = inr (Spec.single_candidate (JString "hi") (Some STOP)
              (Some {| promptTokenCount := JNumber 3;
                       candidatesTokenCount := JNumber 2;
                       totalTokenCount := JNumber 5 |}))
  /\ (exists g,
         generateContentStream JsonText.parse
           (Sample.slow_body_server 10 500000 (Sample.replies 200 "OK" Sample.two_lines_reads))
           Sample.ollama_at_localhost Sample.ask = ([], inr g)
         /\ thrown (drain g) = None)
  /\ generateContent JsonText.parse Sample.add
       (Sample.slow_body_server 10 500000 (Sample.replies 200 "OK" [Sample.hi_body]))
       Sample.ollama_at_localhost Sample.ask
     = generateContent JsonText.parse Sample.add (Sample.answered 200 "OK" [Sample.hi_body])
         Sample.ollama_at_localhost Sample.ask
  /\ generateContentStream JsonText.parse
       (Sample.slow_body_server 10 500000 (Sample.replies 200 "OK" [Sample.hi_body]))
       Sample.ollama_at_localhost Sample.ask
     = generateContentStream JsonText.parse (Sample.answered 200 "OK" [Sample.hi_body])
         Sample.ollama_at_localhost Sample.ask.
Proof.
  pose proof (fun network =>
                failures_of_both_calls JsonText.parse Sample.add network
                  Sample.ollama_at_localhost Sample.ask eq_refl) as H.
  cbv zeta in H.
  repeat match goal with |- _ /\ _ => split end.
  - destruct (H Sample.timed_out) as (_ & T & _). apply T. discriminate.
  - destruct (H Sample.timed_out) as (_ & _ & T & _). apply T. discriminate.
  - destruct (H Sample.failing) as (_ & _ & _ & _ & _ & T & _).
    apply (T (Http.mkResponse 500 "Internal Server Error" (Some (Http.mkStream [] None))));
      reflexivity.
  - destruct (H Sample.failing) as (_ & _ & _ & _ & _ & _ & T & _).
    apply (T (Http.mkResponse 500 "Internal Server Error" (Some (Http.mkStream [] None))));
      reflexivity.
  - destruct (H Sample.unreachable) as (_ & _ & _ & _ & _ & _ & _ & T & _).
    apply (T (mkError "TypeError" "fetch failed")); [reflexivity|reflexivity|discriminate].
  - destruct (H Sample.unreachable) as (_ & _ & _ & _ & _ & _ & _ & _ & T & _).
    apply (T (mkError "TypeError" "fetch failed")); [reflexivity|reflexivity|discriminate].
  - destruct (H Sample.cut_off) as (_ & _ & _ & _ & _ & _ & _ & _ & _ & T & _).
    apply (T (Http.mkResponse 200 "OK" (Some Sample.terminated))
             (mkError "TypeError" "terminated"));
      [reflexivity|reflexivity|reflexivity|reflexivity|discriminate].
  - destruct (H Sample.cut_off) as (_ & _ & _ & _ & _ & _ & _ & _ & _ & _ & T & _).
    apply (T (Http.mkResponse 200 "OK" (Some Sample.terminated))
             (Http.reads Sample.terminated) (mkError "TypeError" "terminated"));
      [reflexivity|reflexivity|reflexivity|reflexivity|discriminate].
  - destruct (H (Sample.slow_body_server 10 500000 (Sample.replies 200 "OK" [Sample.hi_body])))
      as (_ & _ & _ & _ & _ & _ & _ & _ & _ & _ & _ & T & _).
    apply (T (Http.mkResponse 200 "OK" (Some (Http.mkStream [Sample.hi_body] None)))
             Sample.hi_data);
      reflexivity.
  - destruct (H (Sample.slow_body_server 10 500000
                   (Sample.replies 200 "OK" Sample.two_lines_reads)))
      as (_ & _ & _ & _ & _ & _ & _ & _ & _ & _ & _ & _ & T & _).
    apply (T (Http.mkResponse 200 "OK" (Some (Http.mkStream Sample.two_lines_reads None)))
             Sample.two_lines_reads);
      reflexivity.
  - destruct (H (Sample.answered 200 "OK" [Sample.hi_body]))
      as (_ & _ & _ & _ & _ & _ & _ & _ & _ & _ & _ & _ & _ & T).
    apply (T (Sample.slow_body_server 10 500000 (Sample.replies 200 "OK" [Sample.hi_body]))).
    intros url init. split; reflexivity.
  - destruct (H (Sample.answered 200 "OK" [Sample.hi_body]))
      as (_ & _ & _ & _ & _ & _ & _ & _ & _ & _ & _ & _ & _ & T).
    apply (T (Sample.slow_body_server 10 500000 (Sample.replies 200 "OK" [Sample.hi_body]))).
    intros url init. split; reflexivity.
Defined.

(** C5 as stated fails, twice over.  The upstream error thrown on a
    status outside 200..299 is caught by the [catch] block around it,
    and the caller receives the RequestFailed wrapper: on status 500 the
    message is the one below, not the upstream message alone.  And a
    call of [generateContentStream] does not fail on a timeout: it
    returns its generator, whose iteration then throws. *)
Lemma stated_failures_do_not_hold :
  snd (generateContent JsonText.parse Sample.add (Sample.answered 500 "Internal Server Error" [])
         Sample.ollama_at_localhost Sample.ask)
  = inl (new_Error "Local model request failed: Ollama API error: 500 Internal Server Error")
  /\ UpstreamError 500 "Internal Server Error"
     = new_Error "Ollama API error: 500 Internal Server Error"
  /\ ~ (forall JSON_parse JS_add network config request response,
          provider config = ollama ->
          (Http.settle_ms (exchange_of network config request false) < TIMEOUT_MS)%N ->
          Http.outcome (exchange_of network config request false) = Http.Fulfilled response ->
          Http.ok response = false ->
          snd (generateContent JSON_parse JS_add network config request)
          = inl (UpstreamError (Http.status response) (Http.statusText response)))
  /\ ~ (forall JSON_parse network config request,
          provider config = ollama ->
          (TIMEOUT_MS <= Http.settle_ms (exchange_of network config request true))%N ->
          snd (generateContentStream JSON_parse network config request)
          = inl (Timeout config)).
Proof.
  split; [reflexivity|]. split; [reflexivity|]. split.
  - intros H.
    specialize (H JsonText.parse Sample.add (Sample.answered 500 "Internal Server Error" [])
                  Sample.ollama_at_localhost Sample.ask
                  (Http.mkResponse 500 "Internal Server Error"
                     (Some (Http.mkStream [] None)))
                  eq_refl eq_refl eq_refl eq_refl).
    discriminate H.
  - intros H.
    specialize (H JsonText.parse Sample.timed_out
                  Sample.ollama_at_localhost Sample.ask eq_refl).
    discriminate H. discriminate.
Qed.

Lemma one_post_per_call_witness :
  network_calls
    (fst (generateContent JsonText.parse Sample.add (Sample.answered 200 "OK" [Sample.hi_body])
            Sample.ollama_at_localhost Sample.ask))
  = [Fetch "http://localhost:11434/api/generate"
       {| Http.method := "POST";
          Http.headers := [("Content-Type", "application/json")];
          Http.body :=
            {| Http.model := "gemma3:27b";
               Http.prompt := "Hello";
               Http.stream := false;
               Http.options :=
                 {| Http.temperature := 7 # 10;
                    Http.top_p := 9 # 10;
                    Http.top_k := 40 # 1 |} |} |}].
Proof.
  apply (proj1 (one_post_per_call JsonText.parse Sample.add (Sample.answered 200 "OK" [Sample.hi_body])
                  Sample.ollama_at_localhost Sample.ask eq_refl)).
Defined.

Lemma reader_is_released_witness :
  In ReleaseLock
    (effects (generateContentStreamOllama JsonText.parse
                (Sample.server 10
                   (Http.Fulfilled
                      (Http.mkResponse 200 "OK"
                         (Some (Http.mkStream [Sample.line_a]
                                  (Some (mkError "TypeError" "terminated")))))))
                Sample.ollama_at_localhost Sample.ask)).
Proof.
  apply (reader_is_released JsonText.parse _ Sample.ollama_at_localhost Sample.ask
           (Http.mkResponse 200 "OK"
              (Some (Http.mkStream [Sample.line_a]
                       (Some (mkError "TypeError" "terminated")))))
           (Http.mkStream [Sample.line_a] (Some (mkError "TypeError" "terminated"))));
    reflexivity.
Defined.

Lemma reads_may_be_cut_anywhere_witness :
  read_loop JsonText.parse Sample.two_lines_reads None ""
  = read_loop JsonText.parse
      [Sample.line_a ++ String LF ""; Sample.line_b ++ String LF ""] None "".
Proof.
  apply (reads_may_be_cut_anywhere JsonText.parse). reflexivity.
Defined.

(** A stream whose second line lacks its line feed yields the first
    line only. *)
Lemma unterminated_line_is_dropped_witness :
  read_loop JsonText.parse [Sample.line_a ++ String LF Sample.line_b] None ""
  = ([Sample.chunk "a" None], None).
Proof.
  rewrite (unterminated_line_is_dropped JsonText.parse
             [Sample.line_a ++ String LF Sample.line_b] [Sample.line_a] Sample.line_b);
    try reflexivity.
  repeat constructor.
Defined.

End Runs.

(* ===================================================================== *)
(** ** Further properties: the extracted text                            *)
(* ===================================================================== *)

Section ExtractedText.

Lemma white_space_agrees (x y : ascii) :
  Ascii.eqb x y || (is_white_space x && is_white_space y) = true ->
  is_white_space x = is_white_space y.
Proof.
  destruct (Ascii.eqb_spec x y) as [->|_]; [reflexivity|]. simpl.
  now destruct (is_white_space x), (is_white_space y).
Qed.

Lemma same_layout_refl (a : string) : Observe.same_layout a a = true.
Proof.
  induction a as [|x a IH]; [reflexivity|]. simpl. now rewrite Ascii.eqb_refl, IH.
Qed.

Lemma same_layout_app (a b c d : string) :
  Observe.same_layout a b = true ->
  Observe.same_layout c d = true ->
  Observe.same_layout (a ++ c) (b ++ d) = true.
Proof.
  revert b. induction a as [|x a IH]; intros [|y b]; simpl; try discriminate; [auto|].
  intros [Hxy Hab]%andb_prop Hcd. now rewrite Hxy, IH.
Qed.

Lemma same_layout_length (a b : string) :
  Observe.same_layout a b = true -> String.length a = String.length b.
Proof.
  revert b. induction a as [|x a IH]; intros [|y b]; simpl; try discriminate; [auto|].
  intros [_ Hab]%andb_prop. now rewrite (IH b Hab).
Qed.

Lemma same_layout_trimStart (a b : string) :
  Observe.same_layout a b = true ->
  Observe.same_layout (trimStart a) (trimStart b) = true.
Proof.
  revert b. induction a as [|x a IH]; intros [|y b]; simpl; try discriminate; [auto|].
  intros H. pose proof H as [Hxy Hab]%andb_prop.
  assert (Hs : Observe.same_layout (String x a) (String y b) = true) by exact H.
  rewrite <- (white_space_agrees x y Hxy).
  destruct (is_white_space x); [now apply IH | exact Hs].
Qed.

Lemma same_layout_trimEnd (a b : string) :
  Observe.same_layout a b = true ->
  Observe.same_layout (trimEnd a) (trimEnd b) = true.
Proof.
  revert b. induction a as [|x a IH]; intros [|y b]; simpl; try discriminate; [auto|].
  intros [Hxy Hab]%andb_prop. specialize (IH b Hab).
  assert (Hone : Observe.same_layout (String x "") (String y "") = true).
  { simpl. now rewrite Hxy. }
  rewrite <- (white_space_agrees x y Hxy).
  destruct (trimEnd a) as [|u ta], (trimEnd b) as [|v tb]; try discriminate IH.
  - destruct (is_white_space x); [reflexivity | exact Hone].
  - simpl in IH |- *. now rewrite Hxy, IH.
Qed.

Lemma same_layout_trim (a b : string) :
  Observe.same_layout a b = true -> Observe.same_layout (trim a) (trim b) = true.
Proof. intros H. now apply same_layout_trimEnd, same_layout_trimStart. Qed.

Lemma same_layout_suffixed (sep sep' : string) (ts : list string) :
  Observe.same_layout sep sep' = true ->
  Observe.same_layout (String.concat "" (map (fun t => t ++ sep) ts))
    (String.concat "" (map (fun t => t ++ sep') ts)) = true.
Proof.
  intros Hsep. induction ts as [|t ts IH]; [reflexivity|].
  cbn [map]. rewrite !concat_nosep_cons.
  apply same_layout_app; [|exact IH].
  apply same_layout_app; [apply same_layout_refl | exact Hsep].
Qed.

Lemma trimStart_first (s : string) (c : ascii) :
  Observe.first_char (trimStart s) = Some c -> is_white_space c = false.
Proof.
  induction s as [|x s IH]; simpl; [discriminate|].
  destruct (is_white_space x) eqn:E; [exact IH|]. now intros [= <-].
Qed.

Lemma trimEnd_first (s : string) (c : ascii) :
  Observe.first_char (trimEnd s) = Some c -> Observe.first_char s = Some c.
Proof.
  destruct s as [|x s]; simpl; [discriminate|].
  destruct (trimEnd s); [destruct (is_white_space x)|]; simpl; congruence.
Qed.

Lemma last_char_none (s : string) : Observe.last_char s = None -> s = "".
Proof.
  destruct s as [|x s]; [reflexivity|]. simpl. now destruct (Observe.last_char s).
Qed.

Lemma trimEnd_last (s : string) (c : ascii) :
  Observe.last_char (trimEnd s) = Some c -> is_white_space c = false.
Proof.
  induction s as [|x s IH]; simpl; [discriminate|].
  destruct (trimEnd s) as [|u r] eqn:E.
  - destruct (is_white_space x) eqn:Ex; simpl; [discriminate|]. now intros [= <-].
  - change (Observe.last_char (String x (String u r)))
      with (match Observe.last_char (String u r) with Some l => Some l | None => Some x end).
    destruct (Observe.last_char (String u r)) as [l|] eqn:El.
    + intros [= <-]. now apply IH.
    + now apply last_char_none in El.
Qed.

Lemma trimStart_fixed (s : string) :
  (forall c, Observe.first_char s = Some c -> is_white_space c = false) ->
  trimStart s = s.
Proof.
  destruct s as [|x s]; [reflexivity|]. intros H. simpl. now rewrite (H x eq_refl).
Qed.

Lemma trimEnd_fixed (s : string) :
  (forall c, Observe.last_char s = Some c -> is_white_space c = false) ->
  trimEnd s = s.
Proof.
  induction s as [|x s IH]; [reflexivity|]. intros H. simpl.
  rewrite IH.
  - destruct s as [|u r]; [|reflexivity]. now rewrite (H x eq_refl).
  - intros c Hc. apply H. simpl. now rewrite Hc.
Qed.

(** What [trim] returns has white space at neither end, and trimming it
    again changes nothing. *)
Lemma trim_is_trimmed (s : string) :
  (forall c, Observe.first_char (trim s) = Some c -> is_white_space c = false)
  /\ (forall c, Observe.last_char (trim s) = Some c -> is_white_space c = false)
  /\ trim (trim s) = trim s.
Proof.
  assert (Hf : forall c, Observe.first_char (trim s) = Some c -> is_white_space c = false).
  { intros c Hc. eapply trimStart_first, trimEnd_first, Hc. }
  assert (Hl : forall c, Observe.last_char (trim s) = Some c -> is_white_space c = false).
  { intros c. apply trimEnd_last. }
  repeat split; try assumption.
  unfold trim at 1. rewrite (trimStart_fixed (trim s) Hf). now apply trimEnd_fixed.
Qed.

(** X5.  The text [countTokens] measures and the prompt sent for the
    same contents have the same characters at the same places, up to
    which white space separates the parts; so the estimate is the
    ceiling of a quarter of the length of the prompt. *)
Theorem token_estimate_is_of_the_prompt
    (m m' : string) (contents : GenAI.ContentListUnion)
    (config : option GenAI.GenerateContentConfig) :
  Observe.same_layout
    (extractTextFromRequest (GenAI.mkCount m contents))
    (convertToOllamaPrompt (GenAI.mkGenerate m' contents config)) = true
  /\ countTokens (GenAI.mkCount m contents)
     = resolve {| GenAI.totalTokens :=
                    Math_ceil_div
                      (String.length
                         (convertToOllamaPrompt (GenAI.mkGenerate m' contents config))) 4 |}.
Proof.
  assert (H : Observe.same_layout
                (extractTextFromRequest (GenAI.mkCount m contents))
                (convertToOllamaPrompt (GenAI.mkGenerate m' contents config)) = true).
  { rewrite extractTextFromRequest_consumed, convertToOllamaPrompt_consumed.
    unfold Spec.prompt_of. cbn [GenAI.ct_contents GenAI.contents].
    now apply same_layout_trim, same_layout_suffixed. }
  split; [exact H|]. unfold countTokens. now rewrite (same_layout_length _ _ H).
Qed.

(** X6.  The prompt sent to the provider and the text whose tokens are
    counted never begin or end with a white space, and trimming them
    again changes nothing. *)
Theorem extracted_text_is_trimmed :
  (forall request c,
      Observe.first_char (convertToOllamaPrompt request) = Some c
      \/ Observe.last_char (convertToOllamaPrompt request) = Some c ->
      is_white_space c = false)
  /\ (forall request, trim (convertToOllamaPrompt request) = convertToOllamaPrompt request)
  /\ (forall request c,
         Observe.first_char (extractTextFromRequest request) = Some c
         \/ Observe.last_char (extractTextFromRequest request) = Some c ->
         is_white_space c = false)
  /\ (forall request, trim (extractTextFromRequest request) = extractTextFromRequest request).
Proof.
  repeat split; intros request.
  - intros c [H|H]; revert H; unfold convertToOllamaPrompt; cbv zeta;
      apply trim_is_trimmed.
  - unfold convertToOllamaPrompt; cbv zeta. apply trim_is_trimmed.
  - intros c [H|H]; revert H; unfold extractTextFromRequest; cbv zeta;
      apply trim_is_trimmed.
  - unfold extractTextFromRequest; cbv zeta. apply trim_is_trimmed.
Qed.

Lemma all_white_app (a b : string) :
  Observe.all_white (a ++ b) = Observe.all_white a && Observe.all_white b.
Proof.
  induction a as [|x a IH]; [reflexivity|]. simpl. now rewrite IH, andb_assoc.
Qed.

Lemma trimStart_empty (s : string) : trimStart s = "" <-> Observe.all_white s = true.
Proof.
  induction s as [|x s IH]; simpl; [tauto|].
  destruct (is_white_space x); simpl; [exact IH|]. split; discriminate.
Qed.

Lemma trimEnd_empty (s : string) : trimEnd s = "" <-> Observe.all_white s = true.
Proof.
  induction s as [|x s IH]; simpl; [tauto|].
  destruct (trimEnd s) as [|u r].
  - destruct (is_white_space x); simpl; [|split; discriminate].
    split; intros _; [now apply IH | reflexivity].
  - split; [discriminate|]. intros [_ H]%andb_prop. now apply IH in H.
Qed.

Lemma all_white_trimStart (s : string) :
  Observe.all_white (trimStart s) = Observe.all_white s.
Proof.
  induction s as [|x s IH]; [reflexivity|]. simpl.
  destruct (is_white_space x) eqn:E; [exact IH|]. simpl. now rewrite E.
Qed.

Lemma trim_empty (s : string) : trim s = "" <-> Observe.all_white s = true.
Proof. unfold trim. now rewrite trimEnd_empty, all_white_trimStart. Qed.

Lemma all_white_suffixed (sep : string) (ts : list string) :
  Observe.all_white sep = true ->
  Observe.all_white (String.concat "" (map (fun t => t ++ sep) ts))
  = forallb Observe.all_white ts.
Proof.
  intros Hsep. induction ts as [|t ts IH]; [reflexivity|].
  cbn [map forallb]. rewrite concat_nosep_cons, !all_white_app, Hsep, IH.
  now rewrite andb_true_r.
Qed.

Lemma forallb_all_white_nonempty (ts : list string) :
  forallb Observe.all_white (filter nonempty ts) = forallb Observe.all_white ts.
Proof.
  induction ts as [|t ts IH]; [reflexivity|]. cbn [filter forallb].
  destruct t as [|c t]; cbn [nonempty forallb]; now rewrite IH.
Qed.

Lemma ceil_quarter_zero (n : nat) : Math_ceil_div n 4 = 0%Z <-> n = 0%nat.
Proof.
  pose proof (Math_ceil_div_quarter n) as [H1 H2]. split; [lia|]. intros ->. reflexivity.
Qed.

Lemma length_zero (s : string) : String.length s = 0%nat <-> s = "".
Proof. destruct s; simpl; split; congruence. Qed.

(** X19.  The prompt is empty exactly when every text part of the
    content entries is white space only (or there is none), and that is
    also exactly when [countTokens] answers 0 for the same contents. *)
Theorem empty_prompt_iff_blank_texts
    (m m' : string) (contents : GenAI.ContentListUnion)
    (config : option GenAI.GenerateContentConfig) :
  (convertToOllamaPrompt (GenAI.mkGenerate m contents config) = ""
   <-> forallb Observe.all_white (Spec.text_parts contents) = true)
  /\ (countTokens (GenAI.mkCount m' contents) = resolve {| GenAI.totalTokens := 0 |}
      <-> forallb Observe.all_white (Spec.text_parts contents) = true).
Proof.
  assert (Hp : convertToOllamaPrompt (GenAI.mkGenerate m contents config) = ""
               <-> forallb Observe.all_white (Spec.text_parts contents) = true).
  { rewrite convertToOllamaPrompt_consumed, consumed_texts_spec. unfold Spec.prompt_of.
    cbn [GenAI.contents].
    now rewrite trim_empty, all_white_suffixed, forallb_all_white_nonempty. }
  split; [exact Hp|]. rewrite <- Hp.
  destruct (token_estimate_is_of_the_prompt m' m contents config) as [_ ->].
  unfold resolve. split.
  - intros [= H]. now apply ceil_quarter_zero, length_zero in H.
  - intros ->. reflexivity.
Qed.

(** X20.  The [model] named in the request plays no part: two requests
    with the same contents and generation config make the adapter do
    and return the same, whatever models they name.  The model sent is
    the configured one. *)
Theorem request_model_is_ignored
    (JSON_parse : string -> Error + json)
    (JS_add : json -> json -> Error + json)
    (network : string -> Http.RequestInit -> Http.Exchange)
    (local : LocalModelConfig)
    (m m' : string) (contents : GenAI.ContentListUnion)
    (config : option GenAI.GenerateContentConfig) :
  generateContent JSON_parse JS_add network local (GenAI.mkGenerate m contents config)
  = generateContent JSON_parse JS_add network local (GenAI.mkGenerate m' contents config)
  /\ generateContentStream JSON_parse network local (GenAI.mkGenerate m contents config)
     = generateContentStream JSON_parse network local (GenAI.mkGenerate m' contents config)
  /\ countTokens (GenAI.mkCount m contents) = countTokens (GenAI.mkCount m' contents).
Proof. repeat split. Qed.

End ExtractedText.

(* ===================================================================== *)
(** ** Further properties: the two converters on any JSON value          *)
(* ===================================================================== *)

Section Converters.

Variable JS_add : json -> json -> Error + json.




End Converters.

(* ===================================================================== *)
(** ** Further properties: the read loop                                 *)
(* ===================================================================== *)

Section ReadLoop.

Variable JSON_parse : string -> Error + json.

(** X9.  A stream line yields at most one chunk, and it yields one
    exactly when it is not blank and parses to an object whose
    [response] is truthy; the chunk then carries that value as its text
    and STOP when [done] is truthy.  So a line whose [response] is
    missing or empty yields nothing, whatever its [done] says. *)
Theorem line_yields_at_most_one_chunk (line : string) :
  (forall members v,
      Observe.is_nonblank line = true ->
      JSON_parse line = inr (JObject members) ->
      member "response" members = Some v ->
      truthy (Some v) = true ->
      process_line JSON_parse line
      = [Spec.single_candidate v
           (if truthy (member "done" members) then Some STOP else None) None])
  /\ (forall chunk,
         In chunk (process_line JSON_parse line) ->
         exists members v,
           Observe.is_nonblank line = true
           /\ JSON_parse line = inr (JObject members)
           /\ member "response" members = Some v
           /\ truthy (Some v) = true
           /\ process_line JSON_parse line = [chunk])
  /\ (forall members,
         JSON_parse line = inr (JObject members) ->
         truthy (member "response" members) = false ->
         process_line JSON_parse line = [])
  /\ (length (process_line JSON_parse line) <= 1)%nat.
Proof.
  unfold process_line, Observe.is_nonblank.
  destruct (nonempty (trim line)).
  2:{ repeat split; try discriminate; try contradiction; auto. }
  destruct (JSON_parse line) as [e|data]; cbn [and_then].
  { repeat split; try discriminate; try contradiction; auto. }
  destruct data as [| | | | |members];
    try (repeat split; try discriminate; try contradiction; auto; fail).
  cbn [get and_then]. unfold convertFromOllamaStreamResponse. cbn [get and_then].
  destruct (member "response" members) as [v|] eqn:Ev.
  2:{ repeat split; try contradiction; auto.
      intros members' v' _ [= <-] Hm. congruence. }
  destruct (truthy (Some v)) eqn:Et.
  - assert (Hv : or_else (Some v) (JString "") = v).
    { unfold or_else. now rewrite Et. }
    rewrite Hv. repeat split; auto.
    + intros members' v' _ [= <-] Hm. rewrite Ev in Hm. now injection Hm as <-.
    + intros chunk [<-|[]]. exists members, v. repeat split; auto. 
    + intros members' [= <-]. rewrite Ev, Et. discriminate.
  - repeat split; try contradiction; auto.
    intros members' v' _ [= <-] Hm. rewrite Ev in Hm. injection Hm as <-.
    rewrite Et. discriminate.
Qed.

Lemma length_split_LF (s : string) : length (split_LF s) = S (Observe.count_LF s).
Proof.
  induction s as [|c s IH]; [reflexivity|]. simpl.
  destruct (is_LF c); simpl; [now rewrite IH|].
  destruct (split_LF s); simpl in *; [discriminate | exact IH].
Qed.

Lemma length_pop {A : Type} (l : list A) : length (snd (pop l)) = pred (length l).
Proof.
  induction l as [|x l IH]; [reflexivity|]. cbn [pop].
  destruct l as [|y l]; [reflexivity|].
  destruct (pop (y :: l)) as [last rest]. cbn [snd length] in *. now rewrite IH.
Qed.

Lemma length_flat_map_le {A B : Type} (f : A -> list B) (l : list A) :
  (forall x, length (f x) <= 1)%nat -> (length (flat_map f l) <= length l)%nat.
Proof.
  intros Hf. induction l as [|x l IH]; [reflexivity|].
  cbn [flat_map]. rewrite length_app. specialize (Hf x). simpl. lia.
Qed.

(** X10.  Whatever the reads and however the loop ends, it yields no
    more chunks than the body has line feeds. *)
Theorem chunks_bounded_by_line_feeds (reads : list string) (failure : option Error) :
  (length (fst (read_loop JSON_parse reads failure ""))
   <= Observe.count_LF (String.concat "" reads))%nat.
Proof.
  rewrite read_loop_whole by reflexivity. cbn [fst append].
  etransitivity.
  - apply length_flat_map_le. intros line.
    apply (line_yields_at_most_one_chunk line).
  - rewrite length_pop, length_split_LF. reflexivity.
Qed.

Lemma process_line_blank (line : string) :
  Observe.is_nonblank line = false -> process_line JSON_parse line = [].
Proof. unfold process_line, Observe.is_nonblank. now intros ->. Qed.

Lemma flat_map_nonblank (lines : list string) :
  flat_map (process_line JSON_parse) (filter Observe.is_nonblank lines)
  = flat_map (process_line JSON_parse) lines.
Proof.
  induction lines as [|l lines IH]; [reflexivity|]. cbn [filter flat_map].
  destruct (Observe.is_nonblank l) eqn:E; cbn [flat_map]; rewrite IH; [reflexivity|].
  now rewrite process_line_blank.
Qed.

(** X11.  Blank lines (empty, or white space only) are dropped before
    [JSON.parse] is tried: a body of complete lines yields what the same
    body without its blank lines yields. *)
Theorem blank_lines_are_ignored (reads reads' lines : list string) :
  String.concat "" reads = Spec.complete_lines lines ->
  String.concat "" reads' = Spec.complete_lines (filter Observe.is_nonblank lines) ->
  Forall (fun l => Spec.no_LF l = true) lines ->
  read_loop JSON_parse reads None "" = read_loop JSON_parse reads' None "".
Proof.
  intros Hr Hr' Hlines.
  rewrite (read_loop_complete JSON_parse reads lines "");
    [|now rewrite str_app_nil_r|assumption|reflexivity].
  rewrite (read_loop_complete JSON_parse reads' (filter Observe.is_nonblank lines) "");
    [|now rewrite str_app_nil_r| |reflexivity].
  - now rewrite flat_map_nonblank.
  - apply Forall_forall. intros l [Hl _]%filter_In.
    now apply (proj1 (Forall_forall _ _) Hlines).
Qed.

Lemma carried_no_LF (text : string) : Spec.no_LF (Observe.carried text) = true.
Proof.
  unfold Observe.carried.
  destruct (split_LF_app text "") as (init & l & Hsplit & Hl & _).
  now rewrite Hsplit, pop_snoc.
Qed.

(** X12.  Reading goes on where it stopped: the chunks of the reads
    [r1 ++ r2] are the chunks of [r1] followed by the chunks of [r2] read
    with the buffer [r1] left, which is the text after its last line
    feed.  Chunks yielded so far are thus never changed by later reads. *)
Theorem read_loop_resumes (r1 r2 : list string) (failure : option Error) :
  read_loop JSON_parse (r1 ++ r2)%list failure ""
  = ((fst (read_loop JSON_parse r1 None "")
      ++ fst (read_loop JSON_parse r2 failure (Observe.carried (String.concat "" r1))))%list,
     failure).
Proof.
  rewrite (read_loop_whole JSON_parse (r1 ++ r2)%list) by reflexivity.
  rewrite (read_loop_whole JSON_parse r1) by reflexivity.
  rewrite (read_loop_whole JSON_parse r2) by apply carried_no_LF.
  cbn [fst append]. rewrite concat_nosep_app. unfold Observe.carried.
  destruct (split_LF_app (String.concat "" r1) (String.concat "" r2))
    as (init & l & Hsplit & Hl & Hwhole).
  rewrite Hwhole, Hsplit, pop_snoc. cbn [fst snd].
  destruct (split_LF_inhabited (l ++ String.concat "" r2)) as (seg & segs & ->).
  rewrite pop_app. cbn [snd]. now rewrite flat_map_app.
Qed.

End ReadLoop.

(* ===================================================================== *)
(** ** Further properties: failures and effects of the calls             *)
(* ===================================================================== *)

Section Failures.

Variable JSON_parse : string -> Error + json.
Variable JS_add : json -> json -> Error + json.
Variable network : string -> Http.RequestInit -> Http.Exchange.
Variable config : LocalModelConfig.

(** Once the stream has a body to read, its run is the read loop's. *)
Lemma stream_run_of_body (request : GenAI.GenerateContentParameters)
    (response : Http.Response) (b : Http.BodyStream) :
  (Http.settle_ms (exchange_of network config request true) < TIMEOUT_MS)%N ->
  Http.outcome (exchange_of network config request true) = Http.Fulfilled response ->
  Http.ok response = true ->
  Http.stream_body response = Some b ->
  yielded (generateContentStreamOllama JSON_parse network config request)
  = fst (read_loop JSON_parse (Http.reads b) None "")
  /\ thrown (generateContentStreamOllama JSON_parse network config request)
     = option_map (rethrown config) (Http.failure b).
Proof.
  intros Hms Hout Hok Hbody. apply N.ltb_lt in Hms.
  pose proof (generateContentStreamOllama_run JSON_parse network config request) as Hrun.
  cbv zeta in Hrun. rewrite Hms, Hout, Hok, Hbody in Hrun.
  rewrite (read_loop_whole JSON_parse (Http.reads b) (Http.failure b)) in Hrun
    by reflexivity.
  rewrite (read_loop_whole JSON_parse (Http.reads b) None) by reflexivity.
  now injection Hrun as -> ->.
Qed.

Lemma rethrown_kinds (e : Error) :
  name (rethrown config e) = "Error"
  /\ (rethrown config e = Timeout config
      \/ exists cause, rethrown config e = RequestFailed cause).
Proof.
  unfold rethrown, catch_block.
  destruct (String.eqb (name e) "AbortError"); cbn [snd]; split; try reflexivity;
    [now left | right; now exists e].
Qed.

(** X13.  When a read fails in the middle of a stream, the chunks of the
    lines completed before it have been yielded all the same, and the
    iteration then ends with the RequestFailed wrapper around the
    message of the failing read. *)
Theorem failing_read_keeps_chunks (request : GenAI.GenerateContentParameters)
    (response : Http.Response) (reads : list string) (e : Error) :
  (Http.settle_ms (exchange_of network config request true) < TIMEOUT_MS)%N ->
  Http.outcome (exchange_of network config request true) = Http.Fulfilled response ->
  Http.ok response = true ->
  Http.stream_body response = Some (Http.mkStream reads (Some e)) ->
  name e <> "AbortError" ->
  yielded (generateContentStreamOllama JSON_parse network config request)
  = fst (read_loop JSON_parse reads None "")
  /\ thrown (generateContentStreamOllama JSON_parse network config request)
     = Some (new_Error ("Local model request failed: " ++ message_or_self e)).
Proof.
  intros Hms Hout Hok Hbody Hname.
  destruct (stream_run_of_body request response _ Hms Hout Hok Hbody) as [Hy Ht].
  split; [exact Hy|]. rewrite Ht. cbn [Http.failure option_map].
  unfold rethrown, catch_block. now apply String.eqb_neq in Hname as ->.
Qed.

(** X14.  The reader's lock is released exactly once when the stream
    got a reader, and never otherwise: not after a timeout, a rejected
    fetch, a status outside 200..299 or a response without body. *)
Theorem reader_released_once_if_obtained (request : GenAI.GenerateContentParameters) :
  filter Observe.is_release
    (effects (generateContentStreamOllama JSON_parse network config request))
  = let exchange := exchange_of network config request true in
    if (Http.settle_ms exchange <? TIMEOUT_MS)%N then
      match Http.outcome exchange with
      | Http.Rejected _ => []
      | Http.Fulfilled response =>
          if Http.ok response then
            match Http.stream_body response with
            | Some _ => [ReleaseLock]
            | None => []
            end
          else []
      end
    else [].
Proof.
  cbv zeta. unfold generateContentStreamOllama, fetch, failed_run, catch_block, exchange_of.
  cbn [bind perform].
  destruct (Http.settle_ms _ <? TIMEOUT_MS)%N; cbn; [|reflexivity].
  destruct (Http.outcome _) as [e|response]; cbn.
  { now destruct (String.eqb (name e) "AbortError"). }
  destruct (Http.ok response); cbn; [|reflexivity].
  destruct (Http.stream_body response) as [b|]; cbn; [|reflexivity].
  destruct (read_loop JSON_parse (Http.reads b) (Http.failure b) "") as [chunks [e|]];
    cbn; [|reflexivity].
  now destruct (String.eqb (name e) "AbortError").
Qed.

(** X15.  A 2xx response without a body makes the stream fail, before
    any chunk, with the RequestFailed wrapper around "No response body
    from Ollama". *)
Theorem missing_body_fails_the_stream (request : GenAI.GenerateContentParameters)
    (response : Http.Response) :
  (Http.settle_ms (exchange_of network config request true) < TIMEOUT_MS)%N ->
  Http.outcome (exchange_of network config request true) = Http.Fulfilled response ->
  Http.ok response = true ->
  Http.stream_body response = None ->
  yielded (generateContentStreamOllama JSON_parse network config request) = []
  /\ thrown (generateContentStreamOllama JSON_parse network config request)
     = Some (new_Error "Local model request failed: No response body from Ollama").
Proof.
  intros Hms Hout Hok Hbody. apply N.ltb_lt in Hms.
  pose proof (generateContentStreamOllama_run JSON_parse network config request) as Hrun.
  cbv zeta in Hrun. rewrite Hms, Hout, Hok, Hbody in Hrun.
  now injection Hrun as -> ->.
Qed.

(** X16.  No error of the runtime or of the transport reaches the
    caller as it is.  What [generateContent] throws is the
    UnsupportedProvider error, the Timeout error or a RequestFailed
    wrapper; the call of [generateContentStream] throws only the
    UnsupportedProvider error, and iterating its stream only the Timeout
    error or a RequestFailed wrapper.  All are plain [Error]s. *)
Theorem errors_are_of_three_kinds (request : GenAI.GenerateContentParameters) :
  (forall e,
      snd (generateContent JSON_parse JS_add network config request) = inl e ->
      name e = "Error"
      /\ (e = UnsupportedProvider config
          \/ e = Timeout config
          \/ exists cause, e = RequestFailed cause))
  /\ (forall e,
         snd (generateContentStream JSON_parse network config request) = inl e ->
         e = UnsupportedProvider config)
  /\ (forall e,
         thrown (generateContentStreamOllama JSON_parse network config request) = Some e ->
         name e = "Error"
         /\ (e = Timeout config \/ exists cause, e = RequestFailed cause)).
Proof.
  split; [|split].
  - intros e. unfold generateContent.
    destruct (is_ollama (provider config)).
    2:{ intros [= <-]. split; [reflexivity | now left]. }
    rewrite generateContentOllama_settles. cbv zeta.
    assert (K : forall x, @inl Error GenerateContentResponse (rethrown config x) = inl e ->
                name e = "Error"
                /\ (e = UnsupportedProvider config \/ e = Timeout config
                    \/ exists cause, e = RequestFailed cause)).
    { intros x [= <-]. destruct (rethrown_kinds x) as [Hn Hk]. split; [exact Hn|].
      right. exact Hk. }
    destruct (_ <? _)%N; [|apply K].
    destruct (Http.outcome _) as [x|response]; [apply K|].
    destruct (Http.ok response); [|apply K].
    destruct (Response_json JSON_parse response) as [x|data]; [apply K|].
    destruct (convertFromOllamaResponse JS_add data) as [x|r]; [apply K|discriminate].
  - intros e. unfold generateContentStream.
    destruct (is_ollama (provider config)); [discriminate|]. now intros [= <-].
  - intros e.
    pose proof (generateContentStreamOllama_run JSON_parse network config request) as Hrun.
    cbv zeta in Hrun.
    assert (K : forall x, Some (rethrown config x) = Some e ->
                name e = "Error"
                /\ (e = Timeout config \/ exists cause, e = RequestFailed cause)).
    { intros x [= <-]. apply rethrown_kinds. }
    destruct (_ <? _)%N; [|injection Hrun as _ ->; apply K].
    destruct (Http.outcome _) as [x|response]; [injection Hrun as _ ->; apply K|].
    destruct (Http.ok response); [|injection Hrun as _ ->; apply K].
    destruct (Http.stream_body response) as [b|]; [|injection Hrun as _ ->; apply K].
    destruct (read_loop JSON_parse (Http.reads b) (Http.failure b) "") as [chunks [x|]];
      injection Hrun as _ ->; [apply K | discriminate].
Qed.

(** X17.  A 2xx answer whose body cannot be used makes the buffered call
    fail with the RequestFailed wrapper: around the error of
    [response.json()] when the body does not parse, and around the
    TypeError of reading [response] when the body is the JSON [null]. *)
Theorem unusable_body_is_request_failed (request : GenAI.GenerateContentParameters)
    (response : Http.Response) :
  provider config = ollama ->
  (Http.settle_ms (exchange_of network config request false) < TIMEOUT_MS)%N ->
  Http.outcome (exchange_of network config request false) = Http.Fulfilled response ->
  Http.ok response = true ->
  (forall e,
      Response_json JSON_parse response = inl e ->
      name e <> "AbortError" ->
      snd (generateContent JSON_parse JS_add network config request)
      = inl (new_Error ("Local model request failed: " ++ message_or_self e)))
  /\ (Response_json JSON_parse response = inr JNull ->
      snd (generateContent JSON_parse JS_add network config request)
      = inl (new_Error ("Local model request failed: "
                        ++ "Cannot read properties of null (reading "
                        ++ SQUOTE ++ "response" ++ SQUOTE ++ ")"))).
Proof.
  intros Hp Hms Hout Hok. apply N.ltb_lt in Hms.
  unfold generateContent. rewrite Hp. cbn [is_ollama].
  rewrite generateContentOllama_settles. cbv zeta. rewrite Hms, Hout, Hok.
  split.
  - intros e -> Hname. unfold rethrown, catch_block.
    now apply String.eqb_neq in Hname as ->.
  - intros ->. reflexivity.
Qed.

End Failures.

(* ===================================================================== *)
(** ** Further properties: what the buffered call logs                   *)
(* ===================================================================== *)

Section Logging.

Variable JSON_parse : string -> Error + json.
Variable JS_add : json -> json -> Error + json.
Variable network : string -> Http.RequestInit -> Http.Exchange.
Variable config : LocalModelConfig.

Lemma substring_prefix (n : nat) (s : string) : String.prefix (substring 0 n s) s = true.
Proof.
  revert s. induction n as [|n IH]; intros [|c s]; simpl; try reflexivity.
  now rewrite Ascii.eqb_refl, IH || (destruct (ascii_dec c c); [apply IH | contradiction]).
Qed.

Lemma substring_length (n : nat) (s : string) :
  String.length (substring 0 n s) = Nat.min n (String.length s).
Proof.
  revert s. induction n as [|n IH]; intros [|c s]; simpl; try reflexivity.
  now rewrite IH.
Qed.

Lemma substring_all (n : nat) (s : string) :
  (String.length s <= n)%nat -> substring 0 n s = s.
Proof.
  revert s. induction n as [|n IH]; intros [|c s]; simpl; try reflexivity; [lia|].
  intros H. rewrite IH; [reflexivity | lia].
Qed.

(** The two ways the [catch] block ends, as the log shows them. *)
Ltac logged_failure e :=
  destruct (String.eqb (name e) "AbortError");
  [ exists []; split; [reflexivity|]; left; split; [reflexivity|]; now right
  | exists [ConsoleError "[LocalModel] Request failed:" e]; split; [reflexivity|];
    right; exists e; split; reflexivity ].

(** X18.  Before it fetches, the buffered call logs four lines: the URL,
    the model, the length of the prompt and a preview that shows at most
    the first 200 characters of the prompt (all of it, without ellipsis,
    when it is no longer).  After the fetch it logs nothing more, unless
    the call fails with a RequestFailed wrapper: then it logs the
    underlying error once, with [console.error].  A timeout is not
    logged. *)
Theorem buffered_call_is_logged (request : GenAI.GenerateContentParameters) :
  provider config = ollama ->
  let prompt := convertToOllamaPrompt request in
  exists shown ellipsis after,
    fst (generateContent JSON_parse JS_add network config request)
    = ([ ConsoleLog ("[LocalModel] Sending request to " ++ endpoint config ++ "/api/generate");
         ConsoleLog ("[LocalModel] Model: " ++ model config);
         ConsoleLog ("[LocalModel] Prompt length: "
                     ++ string_of_nat (String.length prompt) ++ " characters");
         ConsoleLog ("[LocalModel] Prompt preview: " ++ DQUOTE ++ shown ++ ellipsis ++ DQUOTE);
         Fetch (endpoint config ++ "/api/generate")
           (request_init config request prompt false) ] ++ after)%list
    /\ String.prefix shown prompt = true
    /\ String.length shown = Nat.min 200 (String.length prompt)
    /\ ((String.length prompt <= 200)%nat -> shown = prompt /\ ellipsis = "")
    /\ ((200 < String.length prompt)%nat -> ellipsis = "...")
    /\ ((after = []
         /\ ((exists r, snd (generateContent JSON_parse JS_add network config request) = inr r)
             \/ snd (generateContent JSON_parse JS_add network config request)
                = inl (Timeout config)))
        \/ (exists cause,
               after = [ConsoleError "[LocalModel] Request failed:" cause]
               /\ snd (generateContent JSON_parse JS_add network config request)
                  = inl (RequestFailed cause))).
Proof.
  intros Hp prompt.
  set (shown := substring 0 200 prompt).
  set (ellipsis := if (200 <? String.length prompt)%nat then "..." else "").
  assert (Hrun :
            exists after,
              fst (generateContent JSON_parse JS_add network config request)
              = ([ ConsoleLog ("[LocalModel] Sending request to "
                               ++ endpoint config ++ "/api/generate");
                   ConsoleLog ("[LocalModel] Model: " ++ model config);
                   ConsoleLog ("[LocalModel] Prompt length: "
                               ++ string_of_nat (String.length prompt) ++ " characters");
                   ConsoleLog ("[LocalModel] Prompt preview: "
                               ++ DQUOTE ++ shown ++ ellipsis ++ DQUOTE);
                   Fetch (endpoint config ++ "/api/generate")
                     (request_init config request prompt false) ] ++ after)%list
              /\ ((after = []
                   /\ ((exists r,
                           snd (generateContent JSON_parse JS_add network config request) = inr r)
                       \/ snd (generateContent JSON_parse JS_add network config request)
                          = inl (Timeout config)))
                  \/ (exists cause,
                         after = [ConsoleError "[LocalModel] Request failed:" cause]
                         /\ snd (generateContent JSON_parse JS_add network config request)
                            = inl (RequestFailed cause)))).
  { unfold generateContent. rewrite Hp. cbn [is_ollama].
    unfold generateContentOllama, fetch, on_failure, rethrown, catch_block, generate_url.
    fold prompt. fold shown. fold ellipsis. clearbody shown ellipsis prompt.
    set (x := network _ _). clearbody x.
    set (l1 := ConsoleLog _). set (l2 := ConsoleLog _). set (l3 := ConsoleLog _).
    set (l4 := ConsoleLog _). clearbody l1 l2 l3 l4.
    cbn -[String.eqb].
    destruct (Http.settle_ms x <? TIMEOUT_MS)%N; cbn -[String.eqb].
    2:{ exists []. split; [reflexivity|]. left. split; [reflexivity|]. now right. }
    destruct (Http.outcome x) as [e|response]; cbn -[String.eqb].
    { logged_failure e. }
    destruct (Http.ok response); cbn -[String.eqb].
    2:{ eexists. split; [reflexivity|]. right. eexists. split; reflexivity. }
    destruct (Response_json JSON_parse response) as [e|data]; cbn -[String.eqb].
    { logged_failure e. }
    destruct (convertFromOllamaResponse JS_add data) as [e|r]; cbn -[String.eqb].
    { logged_failure e. }
    exists []. split; [reflexivity|]. left. split; [reflexivity|]. left. now exists r. }
  destruct Hrun as (after & Heq & Hafter).
  exists shown, ellipsis, after.
  split; [exact Heq|]. split; [apply substring_prefix|]. split; [apply substring_length|].
  split; [|split; [|exact Hafter]]; intros H; unfold ellipsis;
    destruct (Nat.ltb_spec 200 (String.length prompt)); try lia; auto.
  split; [now apply substring_all | reflexivity].
Qed.

End Logging.

(* ===================================================================== *)
(** ** The further properties on sample exchanges                        *)
(* ===================================================================== *)

Section FurtherRuns.

(** The line that ends a provider stream yields nothing, although it
    says [done]. *)
Lemma line_yields_at_most_one_chunk_witness :
  process_line JsonText.parse Sample.line_b = [Sample.chunk "b" (Some STOP)]
  /\ process_line JsonText.parse Observe.line_done = [].
Proof.
  split.
  - apply (proj1 (line_yields_at_most_one_chunk JsonText.parse Sample.line_b)
             [("response", JString "b"); ("done", JBool true)] (JString "b"));
      reflexivity.
  - apply (proj1 (proj2 (proj2 (line_yields_at_most_one_chunk JsonText.parse
                                  Observe.line_done)))
             [("done", JBool true)]);
      reflexivity.
Defined.

Lemma extracted_text_is_trimmed_witness :
  convertToOllamaPrompt (Sample.generate ["  Hello "; "world  "])
  = "Hello " ++ String LF "world"
  /\ trim (convertToOllamaPrompt (Sample.generate ["  Hello "; "world  "]))
     = convertToOllamaPrompt (Sample.generate ["  Hello "; "world  "]).
Proof.
  split; [reflexivity|].
  apply (proj1 (proj2 extracted_text_is_trimmed)).
Defined.

Lemma blank_lines_are_ignored_witness :
  read_loop JsonText.parse
    [Sample.line_a ++ String LF ("  " ++ String LF (String LF (Sample.line_b ++ String LF "")))]
    None ""
  = read_loop JsonText.parse
      [Sample.line_a ++ String LF (Sample.line_b ++ String LF "")] None "".
Proof.
  apply (blank_lines_are_ignored JsonText.parse _ _ [Sample.line_a; "  "; ""; Sample.line_b]);
    try reflexivity.
  repeat constructor.
Defined.

Lemma failing_read_keeps_chunks_witness :
  let broken :=
    Http.mkStream [Sample.line_a ++ String LF "{"] (Some (mkError "TypeError" "terminated")) in
  let run :=
    generateContentStreamOllama JsonText.parse
      (Sample.server 10 (Http.Fulfilled (Observe.ok_with broken)))
      Sample.ollama_at_localhost Sample.ask in
  yielded run = [Sample.chunk "a" None]
  /\ thrown run = Some (new_Error "Local model request failed: terminated").
Proof.
  apply (failing_read_keeps_chunks JsonText.parse
           (Sample.server 10
              (Http.Fulfilled
                 (Observe.ok_with
                    (Http.mkStream [Sample.line_a ++ String LF "{"]
                       (Some (mkError "TypeError" "terminated"))))))
           Sample.ollama_at_localhost Sample.ask
           (Observe.ok_with
              (Http.mkStream [Sample.line_a ++ String LF "{"]
                 (Some (mkError "TypeError" "terminated"))))
           [Sample.line_a ++ String LF "{"] (mkError "TypeError" "terminated"));
    try reflexivity.
  discriminate.
Defined.

Lemma missing_body_fails_the_stream_witness :
  let run :=
    generateContentStreamOllama JsonText.parse
      (Sample.server 10 (Http.Fulfilled (Http.mkResponse 204 "No Content" None)))
      Sample.ollama_at_localhost Sample.ask in
  yielded run = []
  /\ thrown run = Some (new_Error "Local model request failed: No response body from Ollama").
Proof.
  apply (missing_body_fails_the_stream JsonText.parse
           (Sample.server 10 (Http.Fulfilled (Http.mkResponse 204 "No Content" None)))
           Sample.ollama_at_localhost Sample.ask
           (Http.mkResponse 204 "No Content" None));
    reflexivity.
Defined.

Lemma errors_are_of_three_kinds_witness :
  let e := new_Error "Local model request failed: Ollama API error: 500 Internal Server Error" in
  name e = "Error"
  /\ (e = UnsupportedProvider Sample.ollama_at_localhost
      \/ e = Timeout Sample.ollama_at_localhost
      \/ exists cause, e = RequestFailed cause).
Proof.
  apply (proj1 (errors_are_of_three_kinds JsonText.parse Sample.add
                  (Sample.answered 500 "Internal Server Error" [])
                  Sample.ollama_at_localhost Sample.ask)).
  reflexivity.
Defined.

Lemma unusable_body_is_request_failed_witness :
  snd (generateContent JsonText.parse Sample.add (Sample.answered 200 "OK" ["not json"])
         Sample.ollama_at_localhost Sample.ask)
  = inl (new_Error "Local model request failed: Unexpected token in JSON")
  /\ snd (generateContent JsonText.parse Sample.add (Sample.answered 200 "OK" ["null"])
            Sample.ollama_at_localhost Sample.ask)
     = inl (new_Error ("Local model request failed: Cannot read properties of null (reading "
                       ++ SQUOTE ++ "response" ++ SQUOTE ++ ")")).
Proof.
  split.
  - apply (proj1 (unusable_body_is_request_failed JsonText.parse Sample.add
                    (Sample.answered 200 "OK" ["not json"])
                    Sample.ollama_at_localhost Sample.ask
                    (Observe.ok_with (Http.mkStream ["not json"] None))
                    eq_refl eq_refl eq_refl eq_refl)
             JsonText.SyntaxError);
      [reflexivity | discriminate].
  - apply (proj2 (unusable_body_is_request_failed JsonText.parse Sample.add
                    (Sample.answered 200 "OK" ["null"])
                    Sample.ollama_at_localhost Sample.ask
                    (Observe.ok_with (Http.mkStream ["null"] None))
                    eq_refl eq_refl eq_refl eq_refl)).
    reflexivity.
Defined.

Lemma buffered_call_is_logged_witness :
  exists after,
    fst (generateContent JsonText.parse Sample.add (Sample.answered 200 "OK" [Sample.hi_body])
           Sample.ollama_at_localhost Sample.ask)
    = ([ ConsoleLog "[LocalModel] Sending request to http://localhost:11434/api/generate";
         ConsoleLog "[LocalModel] Model: gemma3:27b";
         ConsoleLog "[LocalModel] Prompt length: 5 characters";
         ConsoleLog ("[LocalModel] Prompt preview: " ++ DQUOTE ++ "Hello" ++ DQUOTE);
         Fetch "http://localhost:11434/api/generate"
           (request_init Sample.ollama_at_localhost Sample.ask "Hello" false) ]
       ++ after)%list.
Proof.
  destruct (buffered_call_is_logged JsonText.parse Sample.add
              (Sample.answered 200 "OK" [Sample.hi_body])
              Sample.ollama_at_localhost Sample.ask eq_refl)
    as (shown & ellipsis & after & Heq & _ & _ & Hshort & _).
  destruct Hshort as [-> ->]; [apply Nat.leb_le; reflexivity|].
  exists after. exact Heq.
Defined.


End FurtherRuns.
